(** * Speech service of the multilingual voice translation backend

    A shallow embedding of [backend/app/services/speech_service.py]
    (class [SpeechService]) and of the [TextToSpeechRequest] schema of
    [backend/app/models/schemas.py].

    The service is effectful Python: it decodes base64, creates and deletes
    temporary files, calls pydub, speech_recognition and gTTS, and turns every
    failure into an [Exception] with a message.  The embedding keeps that
    shape:

    - the filesystem is a finite map from paths to file contents;
    - every call into a library is an oracle of a [world] record, which
      either returns a value or raises;
    - the service runs in a state-and-exception monad whose state is the
      filesystem together with the trace of the calls made so far;
    - [try]/[except]/[finally] are combinators of that monad. *)

From Stdlib Require Import QArith Qround Qabs.
From stdpp Require Import gmap strings list fin_maps pretty.

Local Open Scope string_scope.
Local Open Scope list_scope.

(** ** Python values *)

Abbreviation path := string (only parsing).
Abbreviation bytes := (list Byte.byte) (only parsing).

(** The exception classes the service distinguishes in its [except]
    clauses.  [Exception] stands for [Exception] itself and for every
    subclass other than the two classes of speech_recognition. *)
Inductive exn : Type :=
| UnknownValueError
| RequestError (msg : string)
| Exception (msg : string).

(** [str(e)] *)
Definition str (e : exn) : string :=
  match e with
  | UnknownValueError => ""
  | RequestError msg => msg
  | Exception msg => msg
  end.

(** pydub's [AudioSegment], reduced to what the service observes: the
    samples, and [len(segment)], the duration in milliseconds. *)
Record AudioSegment : Type := mkSegment {
  samples : bytes;
  len_ms : Z
}.

(** [AudioSegment] defines [__len__] and no [__bool__]: in a condition a
    segment is true when its length is not zero. *)
Definition truthy (seg : AudioSegment) : bool := negb (len_ms seg =? 0)%Z.

(** speech_recognition's [AudioData], as recorded from an [AudioFile]. *)
Record AudioData : Type := mkAudio { frame_data : bytes }.

(** A [gTTS] object: the arguments it was built with. *)
Record gTTS : Type := mkTTS {
  tts_text : string;
  tts_lang : string;
  tts_slow : bool
}.

(** ** [str.replace] *)

Module Str.

(** [s.startswith(p)] *)
Fixpoint startswith (p s : string) : bool :=
  match p, s with
  | EmptyString, _ => true
  | String a p', String b s' => if Ascii.eqb a b then startswith p' s' else false
  | String _ _, EmptyString => false
  end.

(** [s.replace(old, new)] for a non-empty [old]: every occurrence, taken
    from left to right without overlap.  [skip] counts the characters of
    an occurrence that are still to be dropped. *)
Fixpoint replace_from (old new : string) (skip : nat) (s : string) : string :=
  match s with
  | EmptyString => EmptyString
  | String c rest =>
      match skip with
      | S k => replace_from old new k rest
      | O =>
          if startswith old s
          then new +:+ replace_from old new (String.length old - 1) rest
          else String c (replace_from old new 0 rest)
      end
  end.

Definition replace (old new s : string) : string := replace_from old new 0 s.

End Str.

(** ** The world outside the service *)

(** What one call of the service can observe of the libraries it uses.
    A result [inl e] is the exception the library call raises. *)
Record world : Type := mkWorld {
  (** [base64.b64decode]; raises [binascii.Error] *)
  b64decode : string -> string + bytes;
  (** directory and random stem of the name [tempfile] picks *)
  tmp_stem : string;
  (** [str(uuid.uuid4())] *)
  uuid4 : string;
  (** [AudioSegment.from_file(file, format)] on the contents of [file];
      [from_mp3], [from_wav] and [from_ogg] are this call with their format *)
  from_file : string -> bytes -> string + AudioSegment;
  (** the file written by [segment.export(out, format)] *)
  export : AudioSegment -> string -> string + bytes;
  (** [segment.speedup(playback_speed)] *)
  speedup : AudioSegment -> Q -> string + AudioSegment;
  (** [sr.AudioFile] entered on a file with these contents, followed by
      [adjust_for_ambient_noise] and [record] *)
  audio_file : bytes -> string + AudioData;
  (** [Recognizer.recognize_google(audio, language)] *)
  recognize_google : AudioData -> string -> exn + string;
  (** [Recognizer.recognize_sphinx(audio, language)]; the language is
      [None] when the caller leaves the keyword out *)
  recognize_sphinx : AudioData -> option string -> exn + string;
  (** [gTTS(text, lang, slow)]: the error of the constructor, if any *)
  gtts_check : gTTS -> option string;
  (** the MP3 produced by [tts.save]; raises [gTTSError] *)
  gtts_save : gTTS -> string + bytes
}.

(** ** The monad of the service *)

(** Calls that reach outside the process, in the order they are made. *)
Inductive event : Type :=
| Created (p : path)
| Wrote (p : path)
| Loaded (format : string) (p : path)
| Exported (format : string) (p : path)
| Opened (p : path)
| Google (language : string)
| Sphinx (language : option string)
| Unlinked (p : path)
| Synth (tts : gTTS)
| Saved (p : path)
| Speedup (playback_speed : Q).

Record state : Type := mkState {
  files : gmap string bytes;
  trace : list event
}.

Definition M (A : Type) : Type := state -> (exn + A) * state.

Definition ret {A} (a : A) : M A := fun s => (inr a, s).

Definition raise {A} (e : exn) : M A := fun s => (inl e, s).

Definition bind {A B} (m : M A) (k : A -> M B) : M B :=
  fun s =>
    match m s with
    | (inr a, s') => k a s'
    | (inl e, s') => (inl e, s')
    end.

Declare Scope py_scope.
Delimit Scope py_scope with py.
Notation "x <- m ;; k" := (bind m (fun x => k))
  (at level 100, m at next level, right associativity) : py_scope.
Notation "m ;;; k" := (bind m (fun _ => k))
  (at level 100, right associativity) : py_scope.
Local Open Scope py_scope.

(** [try: m  except ...: h].  The handler answers [None] for an exception
    that none of its clauses matches; that exception propagates. *)
Definition try_except {A} (m : M A) (h : exn -> option (M A)) : M A :=
  fun s =>
    match m s with
    | (inr a, s') => (inr a, s')
    | (inl e, s') =>
        match h e with
        | Some k => k s'
        | None => (inl e, s')
        end
    end.

(** [try: m  finally: c].  The clean-up runs on every exit of [m]; an
    exception of the clean-up replaces the outcome of [m]. *)
Definition try_finally {A} (m : M A) (c : M unit) : M A :=
  fun s =>
    match m s with
    | (r, s') =>
        match c s' with
        | (inr _, s'') => (r, s'')
        | (inl e, s'') => (inl e, s'')
        end
    end.

Definition emit (ev : event) : M unit :=
  fun s => (inr tt, mkState (files s) (trace s ++ [ev])).

(** Lifts the answer of a library oracle; any library error is an
    [Exception] for the handlers of the service. *)
Definition lift {A} (r : string + A) : M A :=
  match r with
  | inl msg => raise (Exception msg)
  | inr a => ret a
  end.

Definition lift_exn {A} (r : exn + A) : M A :=
  match r with
  | inl e => raise e
  | inr a => ret a
  end.

(** ** The filesystem *)

Module Fs.

(** the file [p] holds [data] from now on *)
Definition store (p : path) (data : bytes) : M unit :=
  fun s => (inr tt, mkState (<[p := data]> (files s)) (trace s)).

(** [open(p, 'wb')] followed by [write(data)] *)
Definition write (p : path) (data : bytes) : M unit :=
  emit (Wrote p) ;;; store p data.

(** contents of [p]; a missing file raises [FileNotFoundError] *)
Definition read (p : path) : M bytes :=
  fun s =>
    match files s !! p with
    | Some data => (inr data, s)
    | None => (inl (Exception ("No such file or directory: " +:+ p)), s)
    end.

(** [os.path.exists(p)] *)
Definition exists_ (p : path) : M bool :=
  fun s => (inr (bool_decide (is_Some (files s !! p))), s).

(** [os.unlink(p)] *)
Definition unlink (p : path) : M unit :=
  fun s =>
    match files s !! p with
    | Some _ => (inr tt, mkState (delete p (files s)) (trace s ++ [Unlinked p]))
    | None => (inl (Exception ("No such file or directory: " +:+ p)), s)
    end.

(** [tempfile.NamedTemporaryFile(suffix=suffix, delete=False)], left by
    its [with] block: an empty file under the name [tempfile] picked. *)
Definition NamedTemporaryFile (w : world) (suffix : string) : M path :=
  let name := tmp_stem w +:+ suffix in
  emit (Created name) ;;;
  store name [] ;;;
  ret name.

End Fs.

(** ** Language code tables *)

Definition recognition_mapping : gmap string string :=
  list_to_map [
    ("en", "en-US"); ("hi", "hi-IN"); ("kn", "kn-IN"); ("ta", "ta-IN");
    ("te", "te-IN"); ("ml", "ml-IN"); ("bn", "bn-IN"); ("gu", "gu-IN");
    ("mr", "mr-IN"); ("pa", "pa-IN"); ("ur", "ur-PK"); ("es", "es-ES");
    ("fr", "fr-FR"); ("de", "de-DE"); ("it", "it-IT"); ("pt", "pt-PT");
    ("ru", "ru-RU"); ("ja", "ja-JP"); ("ko", "ko-KR"); ("zh", "zh-CN");
    ("ar", "ar-SA") ].

Definition tts_mapping : gmap string string :=
  list_to_map [
    ("kn", "kn"); ("ta", "ta"); ("te", "te"); ("ml", "ml"); ("bn", "bn");
    ("gu", "gu"); ("mr", "mr"); ("pa", "pa"); ("ur", "ur"); ("zh", "zh-cn") ].

(** [dict.get(key, default)] *)
Definition get (d : gmap string string) (key default : string) : string :=
  match d !! key with
  | Some v => v
  | None => default
  end.

Definition _get_recognition_language_code (language : string) : string :=
  get recognition_mapping language "en-US".

Definition _get_tts_language_code (language : string) : string :=
  get tts_mapping language language.

(** ** Calls into the libraries *)

Module Py.

(** [AudioSegment.from_file(p, format=format)] *)
Definition from_file (w : world) (p : path) (format : string) : M AudioSegment :=
  emit (Loaded format p) ;;;
  data <- Fs.read p ;;
  lift (from_file w format data).

Definition from_mp3 (w : world) (p : path) : M AudioSegment := from_file w p "mp3".
Definition from_wav (w : world) (p : path) : M AudioSegment := from_file w p "wav".
Definition from_ogg (w : world) (p : path) : M AudioSegment := from_file w p "ogg".

(** [seg.export(p, format=format)] *)
Definition export (w : world) (seg : AudioSegment) (p : path) (format : string) : M unit :=
  data <- lift (export w seg format) ;;
  emit (Exported format p) ;;;
  Fs.store p data.

(** [seg.speedup(playback_speed=playback_speed)] *)
Definition speedup (w : world) (seg : AudioSegment) (playback_speed : Q) : M AudioSegment :=
  emit (Speedup playback_speed) ;;;
  lift (speedup w seg playback_speed).

(** [with sr.AudioFile(p) as source:] adjust for ambient noise, record *)
Definition record (w : world) (p : path) : M AudioData :=
  emit (Opened p) ;;;
  data <- Fs.read p ;;
  lift (audio_file w data).

Definition recognize_google (w : world) (audio : AudioData) (language : string) : M string :=
  emit (Google language) ;;;
  lift_exn (recognize_google w audio language).

Definition recognize_sphinx (w : world) (audio : AudioData) (language : option string) : M string :=
  emit (Sphinx language) ;;;
  lift_exn (recognize_sphinx w audio language).

(** [tts.save(p)]: the file is opened for writing, then filled *)
Definition save (w : world) (tts : gTTS) (p : path) : M unit :=
  emit (Saved p) ;;;
  Fs.store p [] ;;;
  data <- lift (gtts_save w tts) ;;
  Fs.store p data.

(** [gTTS(text=text, lang=lang, slow=slow)] *)
Definition gTTS (w : world) (text lang : string) (slow : bool) : M gTTS :=
  let tts := mkTTS text lang slow in
  emit (Synth tts) ;;;
  match gtts_check w tts with
  | Some msg => raise (Exception msg)
  | None => ret tts
  end.

End Py.

(** ** Comparisons on speeds *)

Definition Qlt_bool (x y : Q) : bool := negb (Qle_bool y x).
Definition Qne_bool (x y : Q) : bool := negb (Qeq_bool x y).

(** ** [SpeechService.voice_to_text] *)

(** The candidate formats, in the order of the [for] loop. *)
Definition formats : list string := ["m4a"; "mp3"; "wav"; "ogg"; "webm"].

(** The [if]/[elif] chain of the loop body; a format that none of the
    branches names leaves [audio_segment] at [None]. *)
Definition load_as (w : world) (format_type : string) (raw : path) : M (option AudioSegment) :=
  if String.eqb format_type "m4a" then
    seg <- Py.from_file w raw "m4a" ;; ret (Some seg)
  else if String.eqb format_type "mp3" then
    seg <- Py.from_mp3 w raw ;; ret (Some seg)
  else if String.eqb format_type "wav" then
    seg <- Py.from_wav w raw ;; ret (Some seg)
  else if String.eqb format_type "ogg" then
    seg <- Py.from_ogg w raw ;; ret (Some seg)
  else if String.eqb format_type "webm" then
    seg <- Py.from_file w raw "webm" ;; ret (Some seg)
  else ret None.

(** The [for] loop: [break] after the first body that does not raise,
    [continue] on any exception. *)
Fixpoint try_formats (w : world) (raw : path) (candidates : list string) : M (option AudioSegment) :=
  match candidates with
  | [] => ret None
  | format_type :: rest =>
      try_except (load_as w format_type raw)
                 (fun _ => Some (try_formats w raw rest))
  end.

(** Lines 53 to 94: the conversion to WAV and its two fallbacks. *)
Definition convert (w : world) (audio_bytes : bytes) (temp_file_path : path) : M unit :=
  let raw := Str.replace ".wav" ".raw" temp_file_path in
  try_except
    (Fs.write raw audio_bytes ;;;
     audio_segment <- try_formats w raw formats ;;
     match audio_segment with
     | Some seg =>
         if truthy seg
         then Py.export w seg temp_file_path "wav"
         else Fs.write temp_file_path audio_bytes
     | None => Fs.write temp_file_path audio_bytes
     end)
    (fun conversion_error => Some (Fs.write temp_file_path audio_bytes)).

(** Lines 107 to 121: the primary backend, then the offline one. *)
Definition recognize (w : world) (audio : AudioData) (recognition_language : string) : M (string * Q) :=
  try_except
    (text <- Py.recognize_google w audio recognition_language ;;
     ret (text, 85 # 100))
    (fun e =>
       match e with
       | RequestError _ =>
           Some (try_except
                   (text <- Py.recognize_sphinx w audio None ;;
                    ret (text, 7 # 10))
                   (fun e' =>
                      match e' with
                      | RequestError _ =>
                          Some (raise (Exception "Speech recognition service unavailable"))
                      | _ => None
                      end))
       | _ => None
       end).

(** The [finally] clause: each path that exists is unlinked, errors of
    [os.unlink] are ignored. *)
Fixpoint cleanup (paths : list path) : M unit :=
  match paths with
  | [] => ret tt
  | temp_path :: rest =>
      (present <- Fs.exists_ temp_path ;;
       if present
       then try_except (Fs.unlink temp_path) (fun _ => Some (ret tt))
       else ret tt) ;;;
      cleanup rest
  end.

Definition voice_to_text (w : world) (audio_data language : string) : M (string * Q) :=
  try_except
    (audio_bytes <- lift (b64decode w audio_data) ;;
     temp_file_path <- Fs.NamedTemporaryFile w ".wav" ;;
     try_finally
       (convert w audio_bytes temp_file_path ;;;
        audio <- Py.record w temp_file_path ;;
        let recognition_language := _get_recognition_language_code language in
        recognize w audio recognition_language)
       (cleanup [temp_file_path; Str.replace ".wav" ".raw" temp_file_path]))
    (fun e =>
       match e with
       | UnknownValueError =>
           Some (raise (Exception "Could not understand the audio"))
       | RequestError _ =>
           Some (raise (Exception ("Speech recognition service error: " +:+ str e)))
       | Exception _ =>
           Some (raise (Exception ("Voice to text conversion failed: " +:+ str e)))
       end).

(** ** [SpeechService.text_to_speech] *)

Definition audio_output_dir : string := "app/static/audio".

(** [len(audio) / 1000.0] *)
Definition duration_of (audio : AudioSegment) : Q := len_ms audio # 1000.

(** Lines 181 to 207: the [try] that adjusts the speed and exports the
    audio, and its [finally] that removes the temporary file. *)
Definition adjust_speed (w : world) (temp_audio_path audio_path : path) (voice_speed : Q) : M Q :=
  try_finally
    (if Qne_bool voice_speed 1 then
       audio <- Py.from_mp3 w temp_audio_path ;;
       audio <-
         (if Qlt_bool 1 voice_speed then
            Py.speedup w audio voice_speed
          else if Qlt_bool voice_speed 1 then
            if Qle_bool (8 # 10) voice_speed
            then Py.speedup w audio voice_speed
            else ret audio
          else ret audio) ;;
       Py.export w audio audio_path "mp3" ;;;
       ret (duration_of audio)
     else
       audio <- Py.from_mp3 w temp_audio_path ;;
       Py.export w audio audio_path "mp3" ;;;
       ret (duration_of audio))
    (present <- Fs.exists_ temp_audio_path ;;
     if present then Fs.unlink temp_audio_path else ret tt).

Definition text_to_speech (w : world) (text language : string) (voice_speed : Q) : M (string * Q) :=
  try_except
    (let audio_id := uuid4 w in
     let audio_filename := audio_id +:+ ".mp3" in
     let audio_path := audio_output_dir +:+ "/" +:+ audio_filename in
     let tts_language := _get_tts_language_code language in
     tts <- Py.gTTS w text tts_language (Qlt_bool voice_speed (8 # 10)) ;;
     temp_file <- Fs.NamedTemporaryFile w ".mp3" ;;
     Py.save w tts temp_file ;;;
     let temp_audio_path := temp_file in
     duration <- adjust_speed w temp_audio_path audio_path voice_speed ;;
     let relative_path := "/api/v1/audio/" +:+ audio_filename in
     ret (relative_path, duration))
    (fun e => Some (raise (Exception ("Text to speech conversion failed: " +:+ str e)))).

(** Runs a call of the service on a filesystem, with an empty trace. *)
Definition run {A} (m : M A) (fs : gmap string bytes) : (exn + A) * state :=
  m (mkState fs []).

(** ** The [voice_speed] field of [TextToSpeechRequest] *)

Module Schema.

(** How a field arrives in the body of a request. *)
Inductive input (A : Type) : Type :=
| Absent
| Null
| Given (v : A).
Arguments Absent {A}.
Arguments Null {A}.
Arguments Given {A} v.

(** The validation errors of the numeric constraints. *)
Inductive error : Type :=
| greater_than_equal (ge : Q)
| less_than_equal (le : Q).

(** [Optional[float] = Field(default, ge=ge, le=le)]: the default stands
    in for an absent field, [None] is let through, and a number outside
    the bounds is a validation error. *)
Definition optional_float (default ge le : Q) (i : input Q) : error + option Q :=
  match i with
  | Absent => inr (Some default)
  | Null => inr None
  | Given v =>
      if negb (Qle_bool ge v) then inl (greater_than_equal ge)
      else if negb (Qle_bool v le) then inl (less_than_equal le)
      else inr (Some v)
  end.

(** [voice_speed: Optional[float] = Field(1.0, ge=0.5, le=2.0)] *)
Definition voice_speed : input Q -> error + option Q :=
  optional_float 1 (1 # 2) 2.

End Schema.

(** Clamping of a speed into [[lo, hi]], after the words of the data model
    of the specification ("clamped to [0.5, 2.0]"). *)
Definition spec_clamped (lo hi v : Q) : Q :=
  if Qlt_bool v lo then lo else if Qlt_bool hi v then hi else v.

(** ** Reading traces *)

(** The recognition backends called, in order. *)
Definition is_backend_call (ev : event) : bool :=
  match ev with
  | Google _ | Sphinx _ => true
  | _ => false
  end.

Definition is_speedup (ev : event) : bool :=
  match ev with
  | Speedup _ => true
  | _ => false
  end.

Definition is_synth (ev : event) : bool :=
  match ev with
  | Synth _ => true
  | _ => false
  end.

(** The file each decoding attempt reads, in order. *)
Fixpoint attempt_paths (t : list event) : list path :=
  match t with
  | [] => []
  | Loaded _ p :: t' => p :: attempt_paths t'
  | _ :: t' => attempt_paths t'
  end.

(** Whether [p] is unlinked in [t] before the next decoding attempt. *)
Fixpoint unlinked_before_next_attempt (p : path) (t : list event) : bool :=
  match t with
  | [] => true
  | Unlinked q :: t' => if String.eqb p q then true else unlinked_before_next_attempt p t'
  | Loaded _ _ :: _ => false
  | _ :: t' => unlinked_before_next_attempt p t'
  end.

(** Whether every decoding attempt of [t] has its file unlinked before the
    attempt that follows it. *)
Fixpoint released_between_attempts (t : list event) : bool :=
  match t with
  | [] => true
  | Loaded _ p :: t' => unlinked_before_next_attempt p t' && released_between_attempts t'
  | _ :: t' => released_between_attempts t'
  end.

(** ** The search for a format, as a function *)

(** The candidates tried on [data] in order up to the first that decodes,
    and its segment. *)
Fixpoint first_success (w : world) (data : bytes) (candidates : list string)
  : list string * option AudioSegment :=
  match candidates with
  | [] => ([], None)
  | format_type :: rest =>
      match from_file w format_type data with
      | inr seg => ([format_type], Some seg)
      | inl _ =>
          let (tried, found) := first_success w data rest in
          (format_type :: tried, found)
      end
  end.

(** The contents of the WAV file handed to the recognizer, given what the
    search found: the export of a non-empty segment, the raw bytes in every
    other case. *)
Definition normalized (w : world) (audio_bytes : bytes) (found : option AudioSegment) : bytes :=
  match found with
  | Some seg =>
      if truthy seg then
        match export w seg "wav" with
        | inr data => data
        | inl _ => audio_bytes
        end
      else audio_bytes
  | None => audio_bytes
  end.

(** The event of the write that leaves the normalized WAV at [p]. *)
Definition normalizing_event (w : world) (found : option AudioSegment) (p : path) : event :=
  match found with
  | Some seg =>
      if truthy seg then
        match export w seg "wav" with
        | inr _ => Exported "wav" p
        | inl _ => Wrote p
        end
      else Wrote p
  | None => Wrote p
  end.

(** ** Recognition, as a function *)

(** The outcome of lines 107 to 121 for what the two backends answer. *)
Definition recognized (w : world) (audio : AudioData) (recognition_language : string)
  : exn + string * Q :=
  match recognize_google w audio recognition_language with
  | inr text => inr (text, 85 # 100)
  | inl (RequestError _) =>
      match recognize_sphinx w audio None with
      | inr text => inr (text, 7 # 10)
      | inl (RequestError _) => inl (Exception "Speech recognition service unavailable")
      | inl e => inl e
      end
  | inl e => inl e
  end.

(** The calls to the backends that lead to that outcome. *)
Definition backends_called (w : world) (audio : AudioData) (recognition_language : string)
  : list event :=
  match recognize_google w audio recognition_language with
  | inl (RequestError _) => [Google recognition_language; Sphinx None]
  | _ => [Google recognition_language]
  end.

(** The exception [voice_to_text] raises for an exception [e] of its body:
    the three [except] clauses at its end. *)
Definition voice_to_text_error (e : exn) : exn :=
  match e with
  | UnknownValueError => Exception "Could not understand the audio"
  | RequestError _ => Exception ("Speech recognition service error: " +:+ str e)
  | Exception _ => Exception ("Voice to text conversion failed: " +:+ str e)
  end.

(** The two failures of recognition the service tells apart. *)
Definition could_not_understand : exn :=
  Exception "Could not understand the audio".

Definition service_unavailable : exn :=
  Exception "Voice to text conversion failed: Speech recognition service unavailable".

(** The formats of the decoding attempts, in order. *)
Fixpoint attempt_formats (t : list event) : list string :=
  match t with
  | [] => []
  | Loaded format _ :: t' => format :: attempt_formats t'
  | _ :: t' => attempt_formats t'
  end.

(** The calls to the recognition backends, in order. *)
Definition backend_calls (t : list event) : list event := List.filter is_backend_call t.

(** The synthesis requests and the tempo scalings, in order. *)
Definition synth_calls (t : list event) : list event := List.filter is_synth t.
Definition speedup_calls (t : list event) : list event := List.filter is_speedup t.

(** ** Conditions on a call of [voice_to_text] *)

(** The call gets as far as the recognizer, with [audio] recorded from the
    normalized WAV. *)
Definition reaches_recognizer (w : world) (audio_data : string) (audio : AudioData) : Prop :=
  exists audio_bytes,
    b64decode w audio_data = inr audio_bytes /\
    audio_file w (normalized w audio_bytes (first_success w audio_bytes formats).2)
    = inr audio.

Definition unreachable (answer : exn + string) : Prop :=
  exists msg, answer = inl (RequestError msg).

(** A backend that was asked understood the audio and found no speech:
    the primary one, or the offline one after the primary was unreachable. *)
Definition heard_no_speech (w : world) (audio : AudioData) (recognition_language : string) : Prop :=
  recognize_google w audio recognition_language = inl UnknownValueError \/
  (unreachable (recognize_google w audio recognition_language) /\
   recognize_sphinx w audio None = inl UnknownValueError).

Definition both_unreachable (w : world) (audio : AudioData) (recognition_language : string) : Prop :=
  unreachable (recognize_google w audio recognition_language) /\
  unreachable (recognize_sphinx w audio None).

(** No library raises an error whose text is the message the service itself
    uses for two unreachable backends. *)
Definition foreign_messages (w : world) : Prop :=
  let own := "Speech recognition service unavailable" in
  (forall s, b64decode w s <> inl own) /\
  (forall data, audio_file w data <> inl own) /\
  (forall audio language, recognize_google w audio language <> inl (Exception own)) /\
  (forall audio language, recognize_sphinx w audio language <> inl (Exception own)).

(** ** What a computation may emit and touch *)

(** [confined E F m]: whatever the state it starts in, [m] appends to the
    trace only events of [E], and leaves every file outside [F] as it was. *)
Definition confined {A} (E : event -> Prop) (F : path -> Prop) (m : M A) : Prop :=
  forall s,
    (exists t, trace (m s).2 = trace s ++ t /\ Forall E t) /\
    (forall p, ~ F p -> files (m s).2 !! p = files s !! p).

(** The events of the block that adjusts the speed: no request to the
    synthesis backend, and a tempo scaling only by the requested speed, only
    when that speed is not 1.0 and not below 0.8. *)
Definition adjusting (voice_speed : Q) (ev : event) : Prop :=
  is_synth ev = false /\
  (is_speedup ev = true ->
   ev = Speedup voice_speed /\
   Qne_bool voice_speed 1 = true /\ Qlt_bool voice_speed (8 # 10) = false).

(** ** Worlds for concrete runs *)

Module Scenario.

(** Four bytes of audio and their base64 text. *)
Definition clip : bytes := [Byte.x52; Byte.x49; Byte.x46; Byte.x46].
Definition clip_b64 : string := "UklGRg==".

(** What pydub makes of the clip, and its WAV export. *)
Definition decoded : AudioSegment := mkSegment [Byte.x01; Byte.x02] 1200.
Definition wav_of (seg : AudioSegment) : bytes := Byte.x57 :: samples seg.

(** Twice as fast: half the length. *)
Definition faster (seg : AudioSegment) (playback_speed : Q) : AudioSegment :=
  mkSegment (samples seg) (len_ms seg / 2).

(** A world in which [decodable] says which formats pydub accepts, the
    two backends answer [google] and [sphinx], and gTTS answers [saved]. *)
Definition studio (decodable : string -> bool) (google sphinx : exn + string)
    (saved : string + bytes) : world :=
  {| b64decode := fun s =>
       if String.eqb s clip_b64 then inr clip else inl "Incorrect padding";
     tmp_stem := "/tmp/tmpk3v9x2";
     uuid4 := "0b7e6c1e-5a0f-4a57-9f0e-3c1d2a4b5c6d";
     from_file := fun format _ =>
       if decodable format then inr decoded else inl "Decoding failed";
     export := fun seg _ => inr (wav_of seg);
     speedup := fun seg playback_speed => inr (faster seg playback_speed);
     audio_file := fun data => inr (mkAudio data);
     recognize_google := fun _ _ => google;
     recognize_sphinx := fun _ _ => sphinx;
     gtts_check := fun _ => None;
     gtts_save := fun _ => saved |}.

(** Both backends reachable, every format decodable. *)
Definition online : world :=
  studio (fun _ => true) (inr "hello") (inr "hello") (inr clip).

(** Only MP3 decodes; the primary backend is unreachable. *)
Definition offline : world :=
  studio (String.eqb "mp3") (inl (RequestError "connection failed"))
         (inr "hello") (inr clip).

(** No backend is reachable, and pydub decodes nothing. *)
Definition isolated : world :=
  studio (fun _ => false) (inl (RequestError "connection failed"))
         (inl (RequestError "missing PocketSphinx module")) (inl "Connection error").

(** The primary backend hears no speech. *)
Definition silence : world :=
  studio (fun _ => true) (inl UnknownValueError) (inr "hello") (inr clip).

End Scenario.

(** * The rest of the backend *)

(** ** Python library functions the routes and the translation service use *)

(** [os.path.join(a, b)] on POSIX paths. *)
Definition os_path_join (a b : path) : path :=
  if Str.startswith "/" b then b
  else if String.eqb a "" then b
  else if String.eqb (String.substring (String.length a - 1) 1 a) "/" then a +:+ b
  else a +:+ "/" +:+ b.

Module Base64.

Definition alphabet : string :=
  "ABCDEFGHIJKLMNOPQRSTUVWXYZabcdefghijklmnopqrstuvwxyz0123456789+/".

(** The character of a six-bit value. *)
Definition digit (n : N) : Ascii.ascii :=
  match String.get (N.to_nat n) alphabet with
  | Some c => c
  | None => Ascii.ascii_of_nat 61
  end.

(** [base64.b64encode(data).decode('utf-8')]: three bytes become four
    characters, a last group of one or two bytes is padded with [=]. *)
Fixpoint b64encode (data : bytes) : string :=
  match data with
  | [] => ""
  | [a] =>
      let x := Byte.to_N a in
      String (digit (x / 4)) (String (digit (x mod 4 * 16)) "==")
  | [a; b] =>
      let x := Byte.to_N a in
      let y := Byte.to_N b in
      String (digit (x / 4))
        (String (digit (x mod 4 * 16 + y / 16))
           (String (digit (y mod 16 * 4)) "="))
  | a :: b :: c :: rest =>
      let x := Byte.to_N a in
      let y := Byte.to_N b in
      let z := Byte.to_N c in
      String (digit (x / 4))
        (String (digit (x mod 4 * 16 + y / 16))
           (String (digit (y mod 16 * 4 + z / 64))
              (String (digit (z mod 64)) (b64encode rest))))
  end.

(** The six-bit value of a character of the alphabet, [None] for any other
    character. *)
Fixpoint value_from (n : N) (digits : string) (c : Ascii.ascii) : option N :=
  match digits with
  | EmptyString => None
  | String d rest => if Ascii.eqb c d then Some n else value_from (n + 1) rest c
  end.

Definition value : Ascii.ascii -> option N := value_from 0 alphabet.

Definition BASE64_PAD : Ascii.ascii := Ascii.ascii_of_nat 61.

Definition to_byte (n : N) : Byte.byte :=
  match Byte.of_N (n mod 256) with
  | Some b => b
  | None => Byte.x00
  end.

(** [binascii.a2b_base64] as [base64.b64decode] calls it, without
    [strict_mode]: the loop over the characters that are left, with its
    position in the group of four, the bits carried over, the padding seen
    and the bytes written so far.  A character outside the alphabet is
    skipped; padding that completes a group ends the decoding; a group left
    open at the end of the input raises [binascii.Error]. *)
Fixpoint a2b_base64 (ascii_data : string) (quad_pos leftchar pads : N) (bin_data : bytes)
  : string + bytes :=
  match ascii_data with
  | EmptyString =>
      if (quad_pos =? 0)%N then inr bin_data
      else if (quad_pos =? 1)%N then
        inl ("Invalid base64-encoded string: number of data characters ("
               +:+ pretty (N.of_nat (length bin_data) / 3 * 4 + 1)%N
               +:+ ") cannot be 1 more than a multiple of 4")
      else inl "Incorrect padding"
  | String this_ch rest =>
      if Ascii.eqb this_ch BASE64_PAD then
        if (2 <=? quad_pos)%N then
          if (4 <=? quad_pos + (pads + 1))%N then inr bin_data
          else a2b_base64 rest quad_pos leftchar (pads + 1)%N bin_data
        else a2b_base64 rest quad_pos leftchar pads bin_data
      else
        match value this_ch with
        | None => a2b_base64 rest quad_pos leftchar pads bin_data
        | Some this_ch =>
            match quad_pos with
            | 0%N => a2b_base64 rest 1%N this_ch 0%N bin_data
            | 1%N =>
                a2b_base64 rest 2%N (N.land this_ch 15) 0%N
                  (bin_data ++ [to_byte (N.lor (N.shiftl leftchar 2) (N.shiftr this_ch 4))])
            | 2%N =>
                a2b_base64 rest 3%N (N.land this_ch 3) 0%N
                  (bin_data ++ [to_byte (N.lor (N.shiftl leftchar 4) (N.shiftr this_ch 2))])
            | _ =>
                a2b_base64 rest 0%N 0%N 0%N
                  (bin_data ++ [to_byte (N.lor (N.shiftl leftchar 6) this_ch)])
            end
        end
  end.

(** [s.isascii()] *)
Fixpoint isascii (s : string) : bool :=
  match s with
  | EmptyString => true
  | String c rest => (Ascii.nat_of_ascii c <? 128)%nat && isascii rest
  end.

(** [base64.b64decode(s)] on a [str], with its default [validate=False]:
    the text is encoded as ASCII, then decoded by [binascii.a2b_base64]. *)
Definition b64decode (s : string) : string + bytes :=
  if isascii s then a2b_base64 s 0 0 0 []
  else inl "string argument should contain only ASCII characters".

End Base64.

(** Valid base64, as C10 has it ("not valid base64"): the text of an
    encoding, that is groups of four characters of the alphabet, the last
    group ending in at most two [=]. *)
Definition is_base64_digit (c : Ascii.ascii) : bool :=
  match Base64.value c with
  | Some _ => true
  | None => false
  end.

Fixpoint spec_valid_base64 (s : string) : bool :=
  match s with
  | EmptyString => true
  | String a (String b (String c (String d rest))) =>
      is_base64_digit a && is_base64_digit b &&
      match rest with
      | EmptyString =>
          (is_base64_digit c && (is_base64_digit d || Ascii.eqb d Base64.BASE64_PAD))
          || (Ascii.eqb c Base64.BASE64_PAD && Ascii.eqb d Base64.BASE64_PAD)
      | _ => is_base64_digit c && is_base64_digit d && spec_valid_base64 rest
      end
  | _ => false
  end.

(** ** [pydub.effects.speedup], on lengths *)

(** What [AudioSegment.speedup] does to the length of a segment, in
    milliseconds: the segment is cut into chunks, every chunk but the last
    is truncated, and the chunks are joined with a crossfade.  Speeds are
    rationals here; the slices are the ones the routine takes, inside the
    segment.  [None] is an exception of the routine. *)
Module Pydub.

(** [int(x)]: truncation towards zero *)
Definition int (x : Q) : Z := Z.quot (Qnum x) (Z.pos (Qden x)).

(** [len(seg[:stop])] and [len(seg[start:])] for a segment of [len] ms *)
Definition len_to (len stop : Z) : Z :=
  (if stop <? 0 then Z.max 0 (len + stop) else Z.min stop len)%Z.

Definition len_from (len start : Z) : Z :=
  (if start <? 0 then Z.min len (- start) else Z.max 0 (len - start))%Z.

(** [make_chunks(seg, chunk_length)]: [ceil(len / chunk_length)] slices of
    [chunk_length] ms, the last one shorter when the length is no multiple. *)
Definition make_chunks (len chunk_length : Z) : list Z :=
  let number_of_chunks := ((len + chunk_length - 1) / chunk_length)%Z in
  map (fun i => Z.min ((i + 1) * chunk_length) len - Z.min (i * chunk_length) len)%Z
      (seqZ 0 number_of_chunks).

(** [seg1.append(seg2, crossfade)]: without a crossfade the two segments
    one after the other; with one, [seg1[:-crossfade]], then the overlay of
    [seg2[:crossfade]] on [seg1[-crossfade:]], then [seg2[crossfade:]]. *)
Definition append (len1 len2 crossfade : Z) : option Z :=
  (if crossfade =? 0 then Some (len1 + len2)
   else if len1 <? crossfade then None
   else if len2 <? crossfade then None
   else Some (len_to len1 (- crossfade) + len_from len1 (- crossfade)
              + len_from len2 crossfade))%Z.

(** [speedup(seg, playback_speed, chunk_size=150, crossfade=25)] *)
Definition speedup (len : Z) (playback_speed : Q) : option Z :=
  let chunk_size := 150%Z in
  let crossfade := 25%Z in
  let atk := (1 / playback_speed)%Q in
  let '(ms_to_remove_per_chunk, chunk_size) :=
    if Qlt_bool playback_speed 2
    then (int (inject_Z chunk_size * (1 - atk) / atk), chunk_size)
    else (chunk_size, int (atk * inject_Z chunk_size / (1 - atk))) in
  let crossfade := Z.min crossfade (ms_to_remove_per_chunk - 1) in
  let chunks := make_chunks len (chunk_size + ms_to_remove_per_chunk) in
  if (length chunks <? 2)%nat then None
  else
    let ms_to_remove_per_chunk := (ms_to_remove_per_chunk - crossfade)%Z in
    let last_chunk := List.last chunks 0%Z in
    let chunks :=
      map (fun chunk => len_to chunk (- ms_to_remove_per_chunk)) (removelast chunks) in
    out ← foldl (fun out chunk => out ← out; append out chunk crossfade)
                (Some (hd 0%Z chunks)) (tl chunks);
    append out last_chunk 0.

End Pydub.

(** The bound of the specification on the duration of scaled audio, after
    its words ("approximately baselineDuration / speed (within a tolerance,
    e.g. 10%)"). *)
Definition spec_within_tolerance (tolerance duration baseline speed : Q) : bool :=
  Qle_bool (Qabs (duration - baseline / speed)) (tolerance * (baseline / speed)).

(** The methods of [str] whose result depends on the Unicode tables of the
    interpreter; the services are run with the ones of their interpreter. *)
Record pystr : Type := mkPystr {
  (** [s.split()] *)
  split : string -> list string;
  (** [s.strip()] *)
  strip : string -> string;
  (** [s.lower()] *)
  lower : string -> string
}.

(** [sep.join(parts)] *)
Fixpoint join (sep : string) (parts : list string) : string :=
  match parts with
  | [] => ""
  | [part] => part
  | part :: rest => part +:+ sep +:+ join sep rest
  end.

(** ** Settings ([app/config.py]) *)

(** A [dict] with string keys, in insertion order. *)
Module Dict.

Fixpoint get (d : list (string * string)) (key default : string) : string :=
  match d with
  | [] => default
  | (k, v) :: rest => if String.eqb k key then v else get rest key default
  end.

(** [key in d] *)
Fixpoint contains (d : list (string * string)) (key : string) : bool :=
  match d with
  | [] => false
  | (k, _) :: rest => if String.eqb k key then true else contains rest key
  end.

(** [d.keys()] *)
Definition keys (d : list (string * string)) : list string := map fst d.

End Dict.

Module settings.

Definition version : string := "1.0.0".
Definition app_name : string := "Multilingual Voice Translation API".

Definition supported_languages : list (string * string) :=
  [ ("en", "English"); ("hi", "Hindi"); ("kn", "Kannada"); ("ta", "Tamil");
    ("te", "Telugu"); ("ml", "Malayalam"); ("bn", "Bengali"); ("gu", "Gujarati");
    ("mr", "Marathi"); ("pa", "Punjabi"); ("ur", "Urdu"); ("es", "Spanish");
    ("fr", "French"); ("de", "German"); ("it", "Italian"); ("pt", "Portuguese");
    ("ru", "Russian"); ("ja", "Japanese"); ("ko", "Korean"); ("zh", "Chinese");
    ("ar", "Arabic") ].

End settings.

(** ** The translation service ([app/services/gemini_service.py]) *)

Module gemini_service.

(** The generative model: the text of [model.generate_content(prompt)], or
    the exception raised by the call or by reading [response.text]. *)
Record model : Type := mkModel {
  generate_text : string -> string + string
}.

Definition newline : string := String (Ascii.ascii_of_nat 10) "".

(** The f-string of [translate_text], line by line. *)
Definition translation_prompt (source_lang_name target_lang_name text : string) : string :=
  join newline
    [ "";
      "            You are a professional translator specializing in news and media content.";
      "";
      "            Task: Translate the following text from " +:+ source_lang_name
        +:+ " to " +:+ target_lang_name +:+ ".";
      "";
      "            Instructions:";
      "            1. Maintain the original meaning and context";
      "            2. Use appropriate formal language suitable for news content";
      "            3. Preserve any proper nouns, names, and technical terms";
      "            4. Ensure cultural sensitivity and accuracy";
      "            5. Return ONLY the translated text, no explanations or additional content";
      "";
      "            Text to translate:";
      "            " +:+ text;
      "";
      "            Translation:";
      "            " ].

(** The f-string of [detect_language], line by line. *)
Definition detection_prompt (text : string) : string :=
  join newline
    [ "";
      "            Detect the language of the following text and return ONLY the ISO 639-1 language code (2 letters).";
      "";
      "            Supported languages: "
        +:+ join ", " (Dict.keys settings.supported_languages);
      "";
      "            Text: " +:+ text;
      "";
      "            Language code:";
      "            " ].

(** [min] and [max] of two floats *)
Definition fmin (x y : Q) : Q := if Qlt_bool y x then y else x.
Definition fmax (x y : Q) : Q := if Qlt_bool x y then y else x.

(** [round(x, 2)]: the nearest hundredth, a tie going to the even one *)
Definition round2 (x : Q) : Q :=
  let scaled := (x * 100)%Q in
  let below := Qfloor scaled in
  let rest := (scaled - inject_Z below)%Q in
  let nearest :=
    if Qlt_bool rest (1 # 2) then below
    else if Qlt_bool (1 # 2) rest then (below + 1)%Z
    else if Z.even below then below else (below + 1)%Z in
  nearest # 100.

(** Floats are read as the rationals their literals denote.  The division
    by zero of two texts without words raises [ZeroDivisionError], which the
    [except] clause turns into 0.7. *)
Definition _estimate_confidence (py : pystr) (original_text translated_text : string) : Q :=
  let original_length := length (split py original_text) in
  let translated_length := length (split py translated_text) in
  if (Nat.max original_length translated_length =? 0)%nat then 7 # 10
  else
    let length_ratio :=
      Z.of_nat (Nat.min original_length translated_length)
      # Pos.of_nat (Nat.max original_length translated_length) in
    let confidence := 8 # 10 in
    let confidence :=
      if Qlt_bool (7 # 10) length_ratio then (confidence + (1 # 10))%Q
      else if Qlt_bool length_ratio (3 # 10) then (confidence - (2 # 10))%Q
      else confidence in
    let confidence :=
      if (translated_length <? 2)%nat then (confidence - (3 # 10))%Q else confidence in
    let confidence := fmax 0 (fmin 1 confidence) in
    round2 confidence.

Definition translate_text (g : model) (py : pystr) (text source_language target_language : string)
  : M (string * Q) :=
  try_except
    (let source_lang_name :=
       Dict.get settings.supported_languages source_language source_language in
     let target_lang_name :=
       Dict.get settings.supported_languages target_language target_language in
     let prompt := translation_prompt source_lang_name target_lang_name text in
     response_text <- lift (generate_text g prompt) ;;
     (if String.eqb response_text ""
      then raise (Exception "Empty response from Gemini API")
      else ret tt) ;;;
     let translated_text := strip py response_text in
     let confidence_score := _estimate_confidence py text translated_text in
     ret (translated_text, confidence_score))
    (fun e => Some (raise (Exception ("Translation failed: " +:+ str e)))).

Definition detect_language (g : model) (py : pystr) (text : string) : M string :=
  try_except
    (let prompt := detection_prompt text in
     response_text <- lift (generate_text g prompt) ;;
     let detected_language := lower py (strip py response_text) in
     if Dict.contains settings.supported_languages detected_language
     then ret detected_language
     else ret "en")
    (fun e => Some (ret "en")).

End gemini_service.

(** ** The speech service, as the routes call it *)

Module speech_service.

Definition voice_to_text (w : world) (audio_data language : string) : M (string * Q) :=
  voice_to_text w audio_data language.

(** [voice_speed] is [None] when the request carries an explicit null: the
    comparison [voice_speed < 0.8] then raises [TypeError] inside the [try],
    before gTTS is built. *)
Definition text_to_speech (w : world) (text language : string) (voice_speed : option Q)
  : M (string * Q) :=
  match voice_speed with
  | Some speed => text_to_speech w text language speed
  | None =>
      try_except
        (raise (Exception "'<' not supported between instances of 'NoneType' and 'float'"))
        (fun e => Some (raise (Exception ("Text to speech conversion failed: " +:+ str e))))
  end.

End speech_service.

(** ** The request and response models the routes use ([app/models/schemas.py]) *)

Module TranslationRequest.
Record t : Type := make {
  text : string;
  source_language : string;
  target_language : string
}.
End TranslationRequest.

Module TranslationResponse.
Record t : Type := make {
  original_text : string;
  translated_text : string;
  source_language : string;
  target_language : string;
  confidence_score : option Q
}.
End TranslationResponse.

Module VoiceToTextRequest.
Record t : Type := make {
  audio_data : string;
  language : string
}.
End VoiceToTextRequest.

Module VoiceToTextResponse.
Record t : Type := make {
  text : string;
  language : string;
  confidence_score : option Q
}.
End VoiceToTextResponse.

Module TextToSpeechRequest.
Record t : Type := make {
  text : string;
  language : string;
  voice_speed : option Q
}.
End TextToSpeechRequest.

Module TextToSpeechResponse.
Record t : Type := make {
  audio_url : string;
  text : string;
  language : string;
  duration : option Q
}.
End TextToSpeechResponse.

(** fastapi's [UploadFile]: what the route reads of it. *)
Module UploadFile.
Record t : Type := make {
  filename : option string;
  content_type : option string;
  content : bytes
}.
End UploadFile.

(** The [dict] returned by the [speech_to_text] route. *)
Module SpeechToTextResult.
Record t : Type := make {
  text : string;
  transcription : string;
  language : string;
  confidence_score : Q;
  filename : option string
}.
End SpeechToTextResult.

(** fastapi's [FileResponse], as the route builds it. *)
Module FileResponse.
Record t : Type := make {
  path : string;
  media_type : string;
  filename : string
}.
End FileResponse.

(** The [dict] returned by the [detect_language] route. *)
Module DetectionResult.
Record t : Type := make {
  text : string;
  detected_language : string;
  language_name : string
}.
End DetectionResult.

(** ** The routes ([app/api/routes.py]) *)

Module routes.

(** What a route body can raise: fastapi's [HTTPException], or an exception
    of a service. *)
Inductive raised : Type :=
| HTTPException (status_code : nat) (detail : string)
| Uncaught (e : exn).

Definition HTTP_400_BAD_REQUEST : nat := 400.
Definition HTTP_404_NOT_FOUND : nat := 404.
Definition HTTP_500_INTERNAL_SERVER_ERROR : nat := 500.

(** Route bodies run on the state of the services. *)
Definition R (A : Type) : Type := state -> (raised + A) * state.

Definition ret {A} (a : A) : R A := fun s => (inr a, s).

Definition raise {A} (e : raised) : R A := fun s => (inl e, s).

Definition bind {A B} (m : R A) (k : A -> R B) : R B :=
  fun s =>
    match m s with
    | (inr a, s') => k a s'
    | (inl e, s') => (inl e, s')
    end.

Declare Scope route_scope.
Delimit Scope route_scope with route.
Notation "x <- m ;; k" := (bind m (fun x => k))
  (at level 100, m at next level, right associativity) : route_scope.
Notation "m ;;; k" := (bind m (fun _ => k))
  (at level 100, right associativity) : route_scope.
Local Open Scope route_scope.

(** [await service.method(...)] *)
Definition await {A} (m : M A) : R A :=
  fun s =>
    match m s with
    | (inr a, s') => (inr a, s')
    | (inl e, s') => (inl (Uncaught e), s')
    end.

(** [if condition: raise HTTPException(status_code, detail)] *)
Definition reject_if (condition : bool) (status_code : nat) (detail : string) : R unit :=
  if condition then raise (HTTPException status_code detail) else ret tt.

(** The two [except] clauses that close every route: an [HTTPException]
    is raised again as it is, any other exception [e] becomes a 500 with
    the detail the route builds from it. *)
Definition handled {A} (body : R A) (detail : exn -> string) : R A :=
  fun s =>
    match body s with
    | (inl (Uncaught e), s') =>
        (inl (HTTPException HTTP_500_INTERNAL_SERVER_ERROR (detail e)), s')
    | (inl (HTTPException status_code d), s') => (inl (HTTPException status_code d), s')
    | (inr a, s') => (inr a, s')
    end.

(** [language not in settings.supported_languages] *)
Definition unsupported (language : string) : bool :=
  negb (Dict.contains settings.supported_languages language).

Definition translate_text (g : gemini_service.model) (py : pystr) (request : TranslationRequest.t)
  : R TranslationResponse.t :=
  handled
    (reject_if (unsupported (TranslationRequest.source_language request))
       HTTP_400_BAD_REQUEST
       ("Unsupported source language: " +:+ TranslationRequest.source_language request) ;;;
     reject_if (unsupported (TranslationRequest.target_language request))
       HTTP_400_BAD_REQUEST
       ("Unsupported target language: " +:+ TranslationRequest.target_language request) ;;;
     answer <- await (gemini_service.translate_text g py
                        (TranslationRequest.text request)
                        (TranslationRequest.source_language request)
                        (TranslationRequest.target_language request)) ;;
     let (translated_text, confidence) := answer in
     ret (TranslationResponse.make
            (TranslationRequest.text request)
            translated_text
            (TranslationRequest.source_language request)
            (TranslationRequest.target_language request)
            (Some confidence)))
    (fun e => "Translation failed: " +:+ str e).

Definition voice_to_text (w : world) (request : VoiceToTextRequest.t) : R VoiceToTextResponse.t :=
  handled
    (reject_if (unsupported (VoiceToTextRequest.language request))
       HTTP_400_BAD_REQUEST
       ("Unsupported language: " +:+ VoiceToTextRequest.language request) ;;;
     answer <- await (speech_service.voice_to_text w
                        (VoiceToTextRequest.audio_data request)
                        (VoiceToTextRequest.language request)) ;;
     let (recognized_text, confidence) := answer in
     ret (VoiceToTextResponse.make
            recognized_text
            (VoiceToTextRequest.language request)
            (Some confidence)))
    (fun e => "Voice to text conversion failed: " +:+ str e).

(** [not audio.content_type or not audio.content_type.startswith('audio/')] *)
Definition not_audio (audio : UploadFile.t) : bool :=
  match UploadFile.content_type audio with
  | None => true
  | Some content_type =>
      String.eqb content_type "" || negb (Str.startswith "audio/" content_type)
  end.

Definition speech_to_text (w : world) (audio : UploadFile.t) (language : string)
  : R SpeechToTextResult.t :=
  handled
    (reject_if (unsupported language)
       HTTP_400_BAD_REQUEST ("Unsupported language: " +:+ language) ;;;
     reject_if (not_audio audio)
       HTTP_400_BAD_REQUEST "File must be an audio file" ;;;
     let audio_content := UploadFile.content audio in
     let audio_base64 := Base64.b64encode audio_content in
     answer <- await (speech_service.voice_to_text w audio_base64 language) ;;
     let (recognized_text, confidence) := answer in
     ret (SpeechToTextResult.make
            recognized_text recognized_text language confidence
            (UploadFile.filename audio)))
    (fun e => "Speech to text conversion failed: " +:+ str e).

Definition text_to_speech (w : world) (request : TextToSpeechRequest.t)
  : R TextToSpeechResponse.t :=
  handled
    (reject_if (unsupported (TextToSpeechRequest.language request))
       HTTP_400_BAD_REQUEST
       ("Unsupported language: " +:+ TextToSpeechRequest.language request) ;;;
     answer <- await (speech_service.text_to_speech w
                        (TextToSpeechRequest.text request)
                        (TextToSpeechRequest.language request)
                        (TextToSpeechRequest.voice_speed request)) ;;
     let (audio_url, duration) := answer in
     ret (TextToSpeechResponse.make
            audio_url
            (TextToSpeechRequest.text request)
            (TextToSpeechRequest.language request)
            (Some duration)))
    (fun e => "Text to speech conversion failed: " +:+ str e).

(** [os.path.exists(p)] where [p] may name a directory: [files] holds the
    regular files, [is_dir] tells which paths lead to a directory. *)
Definition os_path_exists (is_dir : path -> bool) (p : path) : M bool :=
  fun s => (inr (bool_decide (is_Some (files s !! p)) || is_dir p), s).

Definition get_audio_file (is_dir : path -> bool) (filename : string) : R FileResponse.t :=
  handled
    (let audio_path := os_path_join "app/static/audio" filename in
     present <- await (os_path_exists is_dir audio_path) ;;
     reject_if (negb present) HTTP_404_NOT_FOUND "Audio file not found" ;;;
     ret (FileResponse.make audio_path "audio/mpeg" filename))
    (fun e => "Failed to serve audio file").

Definition detect_language (g : gemini_service.model) (py : pystr) (text : string)
  : R DetectionResult.t :=
  handled
    (reject_if (String.eqb (strip py text) "")
       HTTP_400_BAD_REQUEST "Text cannot be empty" ;;;
     detected_language <- await (gemini_service.detect_language g py text) ;;
     ret (DetectionResult.make
            text detected_language
            (Dict.get settings.supported_languages detected_language "Unknown")))
    (fun e => "Language detection failed: " +:+ str e).

End routes.

(** ** A newsroom for concrete runs of the translation service *)

Module Newsroom.

(** [str] methods for ASCII text in which the blank is the only whitespace. *)
Fixpoint words (current : string) (s : string) : list string :=
  match s with
  | EmptyString => if String.eqb current "" then [] else [current]
  | String c rest =>
      if Ascii.eqb c (Ascii.ascii_of_nat 32)
      then (if String.eqb current "" then words "" rest else current :: words "" rest)
      else words (current +:+ String c "") rest
  end.

Fixpoint lstrip (s : string) : string :=
  match s with
  | String c rest => if Ascii.eqb c (Ascii.ascii_of_nat 32) then lstrip rest else s
  | EmptyString => EmptyString
  end.

Definition rstrip (s : string) : string :=
  String.rev (lstrip (String.rev s)).

Definition lower_char (c : Ascii.ascii) : Ascii.ascii :=
  let n := Ascii.nat_of_ascii c in
  if ((65 <=? n) && (n <=? 90))%nat then Ascii.ascii_of_nat (n + 32) else c.

Fixpoint lower_all (s : string) : string :=
  match s with
  | EmptyString => EmptyString
  | String c rest => String (lower_char c) (lower_all rest)
  end.

Definition ascii_py : pystr :=
  {| split := words "";
     strip := fun s => rstrip (lstrip s);
     lower := lower_all |}.

(** A model that gives the same answer to every prompt. *)
Definition answering (reply : string + string) : gemini_service.model :=
  gemini_service.mkModel (fun _ => reply).

End Newsroom.

(** ** A bench for the decoder of base64 and for tempo scaling *)

Module Bench.

(** The decoder of Python in front of a recognizer that reads no file. *)
Definition lenient : world :=
  {| b64decode := Base64.b64decode;
     tmp_stem := "/tmp/tmpk3v9x2";
     uuid4 := "0b7e6c1e-5a0f-4a57-9f0e-3c1d2a4b5c6d";
     from_file := fun _ _ => inl "Decoding failed";
     export := fun seg _ => inr (Scenario.wav_of seg);
     speedup := fun seg _ => inr seg;
     audio_file := fun _ => inl "Audio file could not be read";
     recognize_google := fun _ _ => inr "hello";
     recognize_sphinx := fun _ _ => inr "hello";
     gtts_check := fun _ => None;
     gtts_save := fun _ => inr Scenario.clip |}.

(** gTTS answers a clip of 1200 ms, and [speedup] changes lengths as
    pydub does. *)
Definition chunked : world :=
  {| b64decode := Base64.b64decode;
     tmp_stem := "/tmp/tmpk3v9x2";
     uuid4 := "0b7e6c1e-5a0f-4a57-9f0e-3c1d2a4b5c6d";
     from_file := fun _ _ => inr Scenario.decoded;
     export := fun seg _ => inr (Scenario.wav_of seg);
     speedup := fun seg playback_speed =>
       match Pydub.speedup (len_ms seg) playback_speed with
       | Some len => inr (mkSegment (samples seg) len)
       | None => inl "Could not speed up AudioSegment"
       end;
     audio_file := fun data => inr (mkAudio data);
     recognize_google := fun _ _ => inr "hello";
     recognize_sphinx := fun _ _ => inr "hello";
     gtts_check := fun _ => None;
     gtts_save := fun _ => inr Scenario.clip |}.

End Bench.

(** * Properties *)

(** ** The language code tables *)

Lemma get_Some (d : gmap string string) (key default v : string) :
  d !! key = Some v -> get d key default = v.
Proof. unfold get. by intros ->. Qed.

Lemma get_None (d : gmap string string) (key default : string) :
  d !! key = None -> get d key default = default.
Proof. unfold get. by intros ->. Qed.

(** Every language the application supports ([settings.supported_languages])
    has a recognition locale of its own. *)
Lemma recognition_mapping_dom :
  dom recognition_mapping
  = list_to_set ["en"; "hi"; "kn"; "ta"; "te"; "ml"; "bn"; "gu"; "mr"; "pa"; "ur";
                 "es"; "fr"; "de"; "it"; "pt"; "ru"; "ja"; "ko"; "zh"; "ar"].
Proof. unfold recognition_mapping. rewrite dom_list_to_map_L. reflexivity. Qed.

(** C3, as the specification words it, fails: for a code without an entry
    [_get_recognition_language_code] does not return the code. *)
Lemma recognition_unknown_code_not_unchanged :
  recognition_mapping !! "xx" = None /\
  _get_recognition_language_code "xx" <> "xx".
Proof. split; [reflexivity | vm_compute; discriminate]. Qed.

(** C3, amended: both mappers are total functions of the code; a code with
    an entry is mapped to the value of its entry; a code without an entry
    is mapped to ["en-US"] by the recognition mapper and to itself by the
    synthesis mapper. *)
Theorem language_code_mappers (language : string) :
  (forall v, recognition_mapping !! language = Some v ->
             _get_recognition_language_code language = v) /\
  (forall v, tts_mapping !! language = Some v ->
             _get_tts_language_code language = v) /\
  (recognition_mapping !! language = None ->
   _get_recognition_language_code language = "en-US") /\
  (tts_mapping !! language = None ->
   _get_tts_language_code language = language).
Proof.
  unfold _get_recognition_language_code, _get_tts_language_code.
  repeat split; intros; auto using get_Some, get_None.
Qed.

Lemma language_code_mappers_witness :
  _get_recognition_language_code "kn" = "kn-IN" /\
  _get_tts_language_code "zh" = "zh-cn" /\
  _get_recognition_language_code "xx" = "en-US" /\
  _get_tts_language_code "en" = "en".
Proof.
  split; [| split; [| split]].
  - apply (proj1 (language_code_mappers "kn")). reflexivity.
  - apply (proj1 (proj2 (language_code_mappers "zh"))). reflexivity.
  - apply (proj1 (proj2 (proj2 (language_code_mappers "xx")))). reflexivity.
  - apply (proj2 (proj2 (proj2 (language_code_mappers "en")))). reflexivity.
Defined.

(** ** The speed of a synthesis request *)

Lemma Qle_bool_false (x y : Q) : (y < x)%Q -> Qle_bool x y = false.
Proof.
  intros Hlt. destruct (Qle_bool x y) eqn:Hle; [| reflexivity].
  apply Qle_bool_iff in Hle. exfalso. exact (Qlt_not_le _ _ Hlt Hle).
Qed.

Lemma Qlt_bool_true (x y : Q) : (x < y)%Q -> Qlt_bool x y = true.
Proof. intros Hlt. unfold Qlt_bool. by rewrite Qle_bool_false. Qed.

Lemma Qlt_bool_false (x y : Q) : (y <= x)%Q -> Qlt_bool x y = false.
Proof.
  intros Hle. unfold Qlt_bool.
  by rewrite (proj2 (Qle_bool_iff y x) Hle).
Qed.

(** C8, as the specification words it, fails: a speed of 3.0 is not
    processed as 2.0, the nearest value of the interval; the request is
    refused. *)
Lemma voice_speed_out_of_range_not_clamped :
  spec_clamped (1 # 2) 2 3 = 2%Q /\
  Schema.voice_speed (Schema.Given 3%Q) = inl (Schema.less_than_equal 2) /\
  Schema.voice_speed (Schema.Given 3%Q) <> inr (Some (spec_clamped (1 # 2) 2 3)).
Proof. split; [reflexivity | split; [reflexivity | discriminate]]. Qed.

(** C8, amended: the speed of a request defaults to 1.0 when the field is
    absent; a supplied speed within [0.5, 2.0] is taken as it is; a supplied
    speed below 0.5 or above 2.0 is a validation error, it is not clamped. *)
Theorem voice_speed_default_and_bounds :
  Schema.voice_speed Schema.Absent = inr (Some 1%Q) /\
  forall v : Q,
    ((1 # 2 <= v)%Q -> (v <= 2)%Q ->
     Schema.voice_speed (Schema.Given v) = inr (Some v)) /\
    ((v < 1 # 2)%Q ->
     Schema.voice_speed (Schema.Given v) = inl (Schema.greater_than_equal (1 # 2))) /\
    ((2 < v)%Q ->
     Schema.voice_speed (Schema.Given v) = inl (Schema.less_than_equal 2)).
Proof.
  split; [reflexivity |].
  intros v. unfold Schema.voice_speed, Schema.optional_float.
  split; [| split].
  - intros Hlo Hhi.
    rewrite (proj2 (Qle_bool_iff _ _) Hlo), (proj2 (Qle_bool_iff _ _) Hhi).
    reflexivity.
  - intros Hlt. rewrite (Qle_bool_false _ _ Hlt). reflexivity.
  - intros Hgt.
    assert (Hlo : (1 # 2 <= v)%Q).
    { apply Qlt_le_weak. eapply Qlt_trans; [| exact Hgt]. reflexivity. }
    rewrite (proj2 (Qle_bool_iff _ _) Hlo), (Qle_bool_false _ _ Hgt).
    reflexivity.
Qed.

Lemma voice_speed_default_and_bounds_witness :
  Schema.voice_speed (Schema.Given (3 # 2)) = inr (Some (3 # 2)) /\
  Schema.voice_speed (Schema.Given (1 # 4)) = inl (Schema.greater_than_equal (1 # 2)) /\
  Schema.voice_speed (Schema.Given 3%Q) = inl (Schema.less_than_equal 2).
Proof.
  destruct voice_speed_default_and_bounds as [_ H].
  split; [| split].
  - apply (proj1 (H (3 # 2))); discriminate.
  - apply (proj1 (proj2 (H (1 # 4)))). reflexivity.
  - apply (proj2 (proj2 (H 3%Q))). reflexivity.
Defined.

(** ** Base64 that does not decode *)

(** A call whose base64 text does not decode: its result and its state. *)
Lemma voice_to_text_undecoded_run
    (w : world) (audio_data language : string) (fs : gmap string bytes) (msg : string) :
  b64decode w audio_data = inl msg ->
  run (voice_to_text w audio_data language) fs
  = (inl (Exception ("Voice to text conversion failed: " +:+ msg)), mkState fs []).
Proof.
  intros Hbad. unfold run, voice_to_text, try_except, bind.
  rewrite Hbad. reflexivity.
Qed.

(** C10, as the claim words it, fails: the four characters [!!!!] are not
    valid base64, yet [base64.b64decode] skips every one of them and
    answers no bytes at all, without raising.  The call goes on: it creates
    the WAV file, writes the raw file, tries the five formats, and fails
    only when the recognizer cannot read the audio. *)
Lemma invalid_base64_is_decoded :
  spec_valid_base64 "!!!!" = false /\
  b64decode Bench.lenient "!!!!" = inr [] /\
  (run (voice_to_text Bench.lenient "!!!!" "en") ∅).1
  = inl (Exception "Voice to text conversion failed: Audio file could not be read") /\
  trace (run (voice_to_text Bench.lenient "!!!!" "en") ∅).2
  = [Created "/tmp/tmpk3v9x2.wav"; Wrote "/tmp/tmpk3v9x2.raw";
     Loaded "m4a" "/tmp/tmpk3v9x2.raw"; Loaded "mp3" "/tmp/tmpk3v9x2.raw";
     Loaded "wav" "/tmp/tmpk3v9x2.raw"; Loaded "ogg" "/tmp/tmpk3v9x2.raw";
     Loaded "webm" "/tmp/tmpk3v9x2.raw";
     Wrote "/tmp/tmpk3v9x2.wav"; Opened "/tmp/tmpk3v9x2.wav";
     Unlinked "/tmp/tmpk3v9x2.wav"; Unlinked "/tmp/tmpk3v9x2.raw"].
Proof. by vm_compute. Qed.

(** C10, amended: when [base64.b64decode] raises on the input,
    [voice_to_text] raises before it creates any file: the filesystem is the
    one the call started with, and no call that touches it or a library has
    been made. *)
Theorem voice_to_text_invalid_base64
    (w : world) (audio_data language : string) (fs : gmap string bytes) (msg : string) :
  b64decode w audio_data = inl msg ->
  (run (voice_to_text w audio_data language) fs).1
  = inl (Exception ("Voice to text conversion failed: " +:+ msg)) /\
  files (run (voice_to_text w audio_data language) fs).2 = fs /\
  trace (run (voice_to_text w audio_data language) fs).2 = [].
Proof.
  intros Hbad. by rewrite (voice_to_text_undecoded_run w audio_data language fs msg).
Qed.

Lemma voice_to_text_invalid_base64_witness :
  (run (voice_to_text Bench.lenient "UklGRg" "en") (<["/etc/hosts" := []]> ∅)).1
  = inl (Exception "Voice to text conversion failed: Incorrect padding") /\
  files (run (voice_to_text Bench.lenient "UklGRg" "en") (<["/etc/hosts" := []]> ∅)).2
  = <["/etc/hosts" := []]> ∅ /\
  trace (run (voice_to_text Bench.lenient "UklGRg" "en") (<["/etc/hosts" := []]> ∅)).2
  = [].
Proof.
  apply (voice_to_text_invalid_base64 Bench.lenient "UklGRg" "en"
           (<["/etc/hosts" := []]> ∅) "Incorrect padding").
  reflexivity.
Defined.

(** ** Confinement of the combinators *)

Section Confinement.

Variable E : event -> Prop.
Variable F : path -> Prop.

Lemma confined_ret {A} (a : A) : confined E F (ret a).
Proof.
  intros s. split; [| done].
  exists []. by rewrite app_nil_r.
Qed.

Lemma confined_raise {A} (e : exn) : confined E F (@raise A e).
Proof.
  intros s. split; [| done].
  exists []. by rewrite app_nil_r.
Qed.

Lemma confined_lift {A} (r : string + A) : confined E F (lift r).
Proof. destruct r; [apply confined_raise | apply confined_ret]. Qed.

Lemma confined_lift_exn {A} (r : exn + A) : confined E F (lift_exn r).
Proof. destruct r; [apply confined_raise | apply confined_ret]. Qed.

Lemma confined_emit (ev : event) : E ev -> confined E F (emit ev).
Proof.
  intros Hev s. split; [| done].
  exists [ev]. split; [done | by constructor].
Qed.

(** Two computations run one after the other, the second in the state
    the first leaves. *)
Lemma confined_then (s s1 s2 : state) :
  ((exists t, trace s1 = trace s ++ t /\ Forall E t) /\
   (forall p, ~ F p -> files s1 !! p = files s !! p)) ->
  ((exists t, trace s2 = trace s1 ++ t /\ Forall E t) /\
   (forall p, ~ F p -> files s2 !! p = files s1 !! p)) ->
  (exists t, trace s2 = trace s ++ t /\ Forall E t) /\
  (forall p, ~ F p -> files s2 !! p = files s !! p).
Proof.
  intros [(t1 & Ht1 & HE1) Hf1] [(t2 & Ht2 & HE2) Hf2]. split.
  - exists (t1 ++ t2). split.
    + by rewrite Ht2, Ht1, app_assoc.
    + by apply Forall_app.
  - intros p Hp. by rewrite Hf2, Hf1.
Qed.

Lemma confined_bind {A B} (m : M A) (k : A -> M B) :
  confined E F m -> (forall a, confined E F (k a)) -> confined E F (bind m k).
Proof.
  intros Hm Hk s. unfold bind.
  specialize (Hm s). destruct (m s) as [[e | a] s1]; [exact Hm |].
  eapply confined_then; [exact Hm | apply Hk].
Qed.

Lemma confined_try_except {A} (m : M A) (h : exn -> option (M A)) :
  confined E F m ->
  (forall e k, h e = Some k -> confined E F k) ->
  confined E F (try_except m h).
Proof.
  intros Hm Hh s. unfold try_except.
  specialize (Hm s). destruct (m s) as [[e | a] s1]; [| exact Hm].
  destruct (h e) as [k |] eqn:Hk; [| exact Hm].
  eapply confined_then; [exact Hm | by eapply Hh].
Qed.

Lemma confined_try_finally {A} (m : M A) (c : M unit) :
  confined E F m -> confined E F c -> confined E F (try_finally m c).
Proof.
  intros Hm Hc s. unfold try_finally.
  specialize (Hm s). destruct (m s) as [r s1].
  specialize (Hc s1). destruct (c s1) as [[e | []] s2];
    eapply confined_then; eauto.
Qed.

Lemma confined_store (p : path) (data : bytes) : F p -> confined E F (Fs.store p data).
Proof.
  intros Hp s. split.
  - exists []. by rewrite app_nil_r.
  - intros q Hq. cbn. apply lookup_insert_ne. by intros ->.
Qed.

Lemma confined_read (p : path) : confined E F (Fs.read p).
Proof.
  intros s. unfold Fs.read. split.
  - exists []. destruct (files s !! p); by rewrite app_nil_r.
  - intros q _. by destruct (files s !! p).
Qed.

Lemma confined_exists (p : path) : confined E F (Fs.exists_ p).
Proof.
  intros s. split; [| done].
  exists []. by rewrite app_nil_r.
Qed.

Lemma confined_unlink (p : path) :
  E (Unlinked p) -> F p -> confined E F (Fs.unlink p).
Proof.
  intros Hev Hp s. unfold Fs.unlink. destruct (files s !! p) eqn:Hlook.
  - split.
    + exists [Unlinked p]. split; [done | by constructor].
    + intros q Hq. cbn. apply lookup_delete_ne. by intros ->.
  - split; [| done]. exists []. by rewrite app_nil_r.
Qed.

End Confinement.

Lemma confined_weaken {A} (E E' : event -> Prop) (F F' : path -> Prop) (m : M A) :
  (forall ev, E ev -> E' ev) -> (forall p, F p -> F' p) ->
  confined E F m -> confined E' F' m.
Proof.
  intros HE HF Hm s. destruct (Hm s) as [(t & Ht & Hall) Hfiles]. split.
  - exists t. split; [done |]. eapply Forall_impl; eauto.
  - intros p Hp. apply Hfiles. intros Hin. apply Hp. by apply HF.
Qed.

Create HintDb confine.
#[export] Hint Resolve confined_ret confined_raise confined_lift confined_lift_exn
  confined_read confined_exists : confine.

(** Splits a computation along its combinators, leaving the events and the
    paths to be justified. *)
Ltac confine_step :=
  lazymatch goal with
  | |- confined _ _ (bind _ _) => apply confined_bind; [| intros ?]
  | |- confined _ _ (try_finally _ _) => apply confined_try_finally
  | |- confined _ _ (try_except _ _) =>
      apply confined_try_except;
      [| let e := fresh "e" in let k := fresh "k" in let Hk := fresh "Hk" in
         intros e k Hk; try destruct e; simplify_eq/=]
  | |- confined _ _ (emit _) => apply confined_emit
  | |- confined _ _ (Fs.store _ _) => apply confined_store
  | |- confined _ _ (Fs.unlink _) => apply confined_unlink
  | |- confined _ _ (if ?b then _ else _) => destruct b eqn:?
  | |- confined _ _ (match ?x with _ => _ end) => destruct x eqn:?
  | |- confined _ _ _ => solve [auto with confine]
  end.

Ltac confine := repeat confine_step.

(** ** Temporary names *)

Lemma replace_wav_cons (c : Ascii.ascii) (s : string) :
  Str.startswith ".wav" (String c s) = false ->
  Str.replace ".wav" ".raw" (String c s) = String c (Str.replace ".wav" ".raw" s).
Proof. unfold Str.replace. cbn [Str.replace_from]. by intros ->. Qed.

Lemma replace_wav_hit (s : string) :
  Str.startswith ".wav" s = true -> Str.replace ".wav" ".raw" s <> s.
Proof.
  intros Hhit Heq.
  destruct s as [| c0 [| c1 s]]; [done | |].
  { cbn [Str.startswith] in Hhit. by destruct (Ascii.eqb _ c0). }
  unfold Str.replace in Heq. cbn [Str.replace_from] in Heq.
  rewrite Hhit in Heq. cbn [String.append] in Heq.
  injection Heq as <- <- _. by vm_compute in Hhit.
Qed.

(** The raw file never has the name of the WAV file. *)
Lemma raw_path_ne (stem : string) :
  Str.replace ".wav" ".raw" (stem +:+ ".wav") <> stem +:+ ".wav".
Proof.
  induction stem as [| c stem IH].
  - by vm_compute.
  - destruct (Str.startswith ".wav" (String c stem +:+ ".wav")) eqn:Hhit.
    + by apply replace_wav_hit.
    + change (String c stem +:+ ".wav") with (String c (stem +:+ ".wav")) in *.
      rewrite replace_wav_cons by done. congruence.
Qed.

(** ** The clean-up *)

Lemma cleanup_cons (p : path) (rest : list path) (s : state) :
  cleanup (p :: rest) s
  = cleanup rest
      match files s !! p with
      | Some _ => mkState (delete p (files s)) (trace s ++ [Unlinked p])
      | None => s
      end.
Proof.
  cbn [cleanup]. unfold bind, Fs.exists_, try_except, Fs.unlink, ret.
  case_bool_decide as Hpresent.
  - destruct Hpresent as [data ->]. reflexivity.
  - apply eq_None_not_Some in Hpresent. by rewrite Hpresent.
Qed.

(** The clean-up never raises, and leaves none of its paths behind. *)
Lemma cleanup_run (paths : list path) (s : state) :
  (cleanup paths s).1 = inr tt /\
  files (cleanup paths s).2 = foldl (fun m p => delete p m) (files s) paths.
Proof.
  revert s. induction paths as [| p rest IH]; intros s; [done |].
  rewrite cleanup_cons. cbn [foldl].
  destruct (files s !! p) eqn:Hp.
  - apply IH.
  - rewrite (delete_id _ _ Hp). apply IH.
Qed.

Lemma cleanup_confined (paths : list path) :
  confined (fun ev => exists p, ev = Unlinked p /\ p ∈ paths) (fun p => p ∈ paths)
           (cleanup paths).
Proof.
  induction paths as [| p rest IH]; cbn [cleanup].
  - apply confined_ret.
  - confine; try set_solver.
    eapply confined_weaken; [| | exact IH]; cbn.
    + intros ev (q & -> & Hq). exists q. set_solver.
    + set_solver.
Qed.

(** ** The search for a format *)

Lemma from_file_run (w : world) (p : path) (format : string) (data : bytes) (s : state) :
  files s !! p = Some data ->
  Py.from_file w p format s
  = (match from_file w format data with
     | inl msg => inl (Exception msg)
     | inr seg => inr seg
     end,
     mkState (files s) (trace s ++ [Loaded format p])).
Proof.
  intros Hdata. unfold Py.from_file, bind, emit, Fs.read, lift. cbn.
  rewrite Hdata. by destruct (from_file w format data).
Qed.

(** Each candidate of the list is read from the raw file with the pydub
    call of its own format. *)
Lemma load_as_run (w : world) (format_type : string) (raw : path) (data : bytes) (s : state) :
  format_type ∈ formats ->
  files s !! raw = Some data ->
  load_as w format_type raw s
  = (match from_file w format_type data with
     | inl msg => inl (Exception msg)
     | inr seg => inr (Some seg)
     end,
     mkState (files s) (trace s ++ [Loaded format_type raw])).
Proof.
  intros Hin Hdata. unfold formats in Hin.
  repeat (apply elem_of_cons in Hin as [-> | Hin]);
    [.. | by apply elem_of_nil in Hin];
    unfold load_as, Py.from_mp3, Py.from_wav, Py.from_ogg; cbn [String.eqb Ascii.eqb Bool.eqb];
    unfold bind at 1; rewrite (from_file_run _ _ _ _ _ Hdata);
    by destruct (from_file w _ data).
Qed.

(** The loop is the search for the first candidate that decodes: it tries
    the candidates in order, stops at the first success, and raises
    nothing. *)
Lemma try_formats_run (w : world) (raw : path) (data : bytes) (candidates : list string) (s : state) :
  candidates ⊆ formats ->
  files s !! raw = Some data ->
  try_formats w raw candidates s
  = (inr (first_success w data candidates).2,
     mkState (files s)
             (trace s ++ map (fun format_type => Loaded format_type raw)
                             (first_success w data candidates).1)).
Proof.
  revert s. induction candidates as [| format_type rest IH]; intros s Hsub Hdata.
  - cbn. by rewrite app_nil_r; destruct s.
  - cbn [try_formats first_success]. unfold try_except.
    rewrite (load_as_run w format_type raw data s) by set_solver.
    destruct (from_file w format_type data) as [msg | seg]; [| done].
    rewrite IH by set_solver. cbn.
    destruct (first_success w data rest) as [tried found]. cbn.
    by rewrite <- app_assoc.
Qed.

(** The tried candidates are a prefix of the list: the failures, then the
    one success if there is one. *)
Lemma first_success_found (w : world) (data : bytes) (failed later : list string)
    (format_type : string) (seg : AudioSegment) :
  Forall (fun f => exists msg, from_file w f data = inl msg) failed ->
  from_file w format_type data = inr seg ->
  first_success w data (failed ++ format_type :: later) = (failed ++ [format_type], Some seg).
Proof.
  intros Hfailed Hok. induction Hfailed as [| f failed [msg Hmsg] _ IH]; cbn.
  - by rewrite Hok.
  - by rewrite Hmsg, IH.
Qed.

Lemma first_success_none (w : world) (data : bytes) (candidates : list string) :
  Forall (fun f => exists msg, from_file w f data = inl msg) candidates ->
  first_success w data candidates = (candidates, None).
Proof.
  intros Hfailed. induction Hfailed as [| f failed [msg Hmsg] _ IH]; cbn; [done |].
  by rewrite Hmsg, IH.
Qed.

(** ** The conversion *)

(** The conversion never raises.  It leaves the raw bytes in the raw file
    and the normalized audio in the WAV file. *)
Lemma convert_run (w : world) (audio_bytes : bytes) (temp_file_path : path) (s : state) :
  let raw := Str.replace ".wav" ".raw" temp_file_path in
  let search := first_success w audio_bytes formats in
  convert w audio_bytes temp_file_path s
  = (inr tt,
     mkState (<[temp_file_path := normalized w audio_bytes search.2]>
                (<[raw := audio_bytes]> (files s)))
             (trace s ++ [Wrote raw]
                ++ map (fun format_type => Loaded format_type raw) search.1
                ++ [normalizing_event w search.2 temp_file_path])).
Proof.
  intros raw search. unfold convert. fold raw.
  unfold try_except, bind at 1. unfold Fs.write at 1, bind at 1, emit at 1, Fs.store at 1.
  cbn [fst snd files trace]. unfold bind at 1.
  rewrite (try_formats_run w raw audio_bytes) by (done || apply lookup_insert_eq).
  fold search. cbn [files trace].
  unfold normalized, normalizing_event.
  destruct search.2 as [seg |]; [destruct (truthy seg) |].
  - unfold Py.export, bind, lift, emit, Fs.store, ret, raise, Fs.write.
    destruct (export w seg "wav") as [msg | data]; cbn;
      by rewrite <- !app_assoc.
  - unfold Fs.write, bind, emit, Fs.store. cbn. by rewrite <- !app_assoc.
  - unfold Fs.write, bind, emit, Fs.store. cbn. by rewrite <- !app_assoc.
Qed.

(** ** Recognition *)

Lemma recognize_run (w : world) (audio : AudioData) (recognition_language : string) (s : state) :
  recognize w audio recognition_language s
  = (recognized w audio recognition_language,
     mkState (files s) (trace s ++ backends_called w audio recognition_language)).
Proof.
  unfold recognize, recognized, backends_called, try_except, bind,
    Py.recognize_google, Py.recognize_sphinx, emit, lift_exn, ret, raise.
  cbn [fst snd files trace].
  destruct (recognize_google w audio recognition_language) as [[| msg | msg] | text];
    try done.
  destruct (recognize_sphinx w audio None) as [[| msg' | msg'] | text];
    cbn; by rewrite <- app_assoc.
Qed.

(** ** A whole call of [voice_to_text] *)

(** What a call does once the base64 text has decoded to [audio_bytes]:
    its result, the files it leaves, and the calls it makes. *)
Lemma voice_to_text_run (w : world) (audio_data language : string)
    (fs : gmap string bytes) (audio_bytes : bytes) :
  b64decode w audio_data = inr audio_bytes ->
  let temp_file_path := tmp_stem w +:+ ".wav" in
  let raw := Str.replace ".wav" ".raw" temp_file_path in
  let search := first_success w audio_bytes formats in
  let content := normalized w audio_bytes search.2 in
  let recognition_language := _get_recognition_language_code language in
  run (voice_to_text w audio_data language) fs
  = (match audio_file w content with
     | inl msg => inl (Exception ("Voice to text conversion failed: " +:+ msg))
     | inr audio =>
         match recognized w audio recognition_language with
         | inl e => inl (voice_to_text_error e)
         | inr answer => inr answer
         end
     end,
     mkState (delete raw (delete temp_file_path fs))
             ([Created temp_file_path; Wrote raw]
                ++ map (fun format_type => Loaded format_type raw) search.1
                ++ [normalizing_event w search.2 temp_file_path; Opened temp_file_path]
                ++ match audio_file w content with
                   | inl _ => []
                   | inr audio => backends_called w audio recognition_language
                   end
                ++ [Unlinked temp_file_path; Unlinked raw])).
Proof.
  intros Hdecoded temp_file_path raw search content recognition_language.
  assert (Hne : raw <> temp_file_path) by apply raw_path_ne.
  unfold run, voice_to_text. unfold try_except at 1, bind at 1.
  rewrite Hdecoded. unfold lift, ret at 1.
  unfold bind at 1, Fs.NamedTemporaryFile, bind at 1, bind at 1, emit at 1,
    Fs.store at 1, ret at 1.
  cbn [fst snd files trace]. fold temp_file_path raw recognition_language.
  unfold try_finally, bind at 1. rewrite convert_run. cbn [fst snd files trace].
  fold temp_file_path raw search content.
  unfold bind at 1, Py.record, bind at 1, emit at 1, bind at 1, Fs.read at 1.
  cbn [fst snd files trace]. rewrite lookup_insert_eq.
  assert (Hclean : forall x y z (t : list event),
    cleanup [temp_file_path; raw]
      (mkState (<[temp_file_path := x]> (<[raw := y]> (<[temp_file_path := z]> fs))) t)
    = (inr tt, mkState (delete raw (delete temp_file_path fs))
                       (t ++ [Unlinked temp_file_path; Unlinked raw]))).
  { intros x y z t. rewrite !cleanup_cons. cbn [cleanup files trace].
    rewrite lookup_insert_eq. cbn [files trace].
    rewrite lookup_delete_ne, lookup_insert_ne, lookup_insert_eq by done.
    unfold ret. f_equal.
    rewrite delete_insert_eq, delete_insert_ne, delete_insert_eq, delete_insert_eq by done.
    by rewrite <- app_assoc. }
  unfold lift. destruct (audio_file w content) as [msg | audio].
  - unfold raise at 1. rewrite Hclean. cbn.
    unfold raise. do 2 f_equal. by rewrite <- !app_assoc.
  - unfold ret at 1. rewrite recognize_run. cbn [fst snd files trace].
    rewrite Hclean.
    destruct (recognized w audio recognition_language) as [[| m | m] | answer];
      cbn; unfold raise; do 2 f_equal; by rewrite <- !app_assoc.
Qed.

(** ** Reading the trace of a call *)

Lemma attempt_formats_app (t1 t2 : list event) :
  attempt_formats (t1 ++ t2) = attempt_formats t1 ++ attempt_formats t2.
Proof.
  induction t1 as [| ev t1 IH]; [done |].
  destruct ev; cbn; by rewrite ?IH.
Qed.

Lemma attempt_formats_loaded (p : path) (tried : list string) :
  attempt_formats (map (fun format_type => Loaded format_type p) tried) = tried.
Proof. induction tried as [| f tried IH]; cbn; by rewrite ?IH. Qed.

Lemma attempt_paths_app (t1 t2 : list event) :
  attempt_paths (t1 ++ t2) = attempt_paths t1 ++ attempt_paths t2.
Proof.
  induction t1 as [| ev t1 IH]; [done |].
  destruct ev; cbn; by rewrite ?IH.
Qed.

Lemma attempt_paths_loaded (p : path) (tried : list string) :
  attempt_paths (map (fun format_type => Loaded format_type p) tried)
  = replicate (length tried) p.
Proof. induction tried as [| f tried IH]; cbn; by rewrite ?IH. Qed.

Lemma normalizing_event_cases (w : world) (found : option AudioSegment) (p : path) :
  normalizing_event w found p = Exported "wav" p \/ normalizing_event w found p = Wrote p.
Proof.
  unfold normalizing_event.
  destruct found as [seg |]; [| by right].
  destruct (truthy seg); [| by right].
  destruct (export w seg "wav"); [by right | by left].
Qed.

Lemma backend_calls_app (t1 t2 : list event) :
  backend_calls (t1 ++ t2) = backend_calls t1 ++ backend_calls t2.
Proof. apply List.filter_app. Qed.

Lemma backend_calls_loaded (p : path) (tried : list string) :
  backend_calls (map (fun format_type => Loaded format_type p) tried) = [].
Proof. induction tried as [| f tried IH]; cbn; by rewrite ?IH. Qed.

Lemma backend_calls_of_recognize (w : world) (audio : AudioData) (language : string) :
  backend_calls (backends_called w audio language) = backends_called w audio language.
Proof.
  unfold backends_called.
  by destruct (recognize_google w audio language) as [[| msg | msg] | text].
Qed.

(** ** The decoder *)

(** C2: the decoder tries m4a, mp3, wav, ogg and webm in this order.  The
    first candidate that decodes ends the search, no later one is tried,
    and its segment determines the normalized WAV (its export, for audio
    that is not empty).  When every candidate fails the raw bytes are
    written as the WAV and nothing is raised; the call then fails before
    recognition only if the input stage of the recognizer cannot open
    those bytes. *)
Theorem decoder_first_success_wins
    (w : world) (audio_bytes : bytes) (temp_file_path : path) (s : state) :
  let after := convert w audio_bytes temp_file_path s in
  let fails := fun format_type => exists msg, from_file w format_type audio_bytes = inl msg in
  formats = ["m4a"; "mp3"; "wav"; "ogg"; "webm"] /\
  after.1 = inr tt /\
  (forall failed format_type later seg,
     formats = failed ++ format_type :: later ->
     Forall fails failed ->
     from_file w format_type audio_bytes = inr seg ->
     attempt_formats (trace after.2)
     = attempt_formats (trace s) ++ failed ++ [format_type] /\
     files after.2 !! temp_file_path = Some (normalized w audio_bytes (Some seg)) /\
     (forall wav, truthy seg = true -> export w seg "wav" = inr wav ->
                  files after.2 !! temp_file_path = Some wav)) /\
  (Forall fails formats ->
   attempt_formats (trace after.2) = attempt_formats (trace s) ++ formats /\
   files after.2 !! temp_file_path = Some audio_bytes /\
   forall audio_data language fs,
     b64decode w audio_data = inr audio_bytes ->
     let call := run (voice_to_text w audio_data language) fs in
     (forall msg, audio_file w audio_bytes = inl msg ->
        call.1 = inl (Exception ("Voice to text conversion failed: " +:+ msg))) /\
     (forall audio, audio_file w audio_bytes = inr audio ->
        call.1 = match recognized w audio (_get_recognition_language_code language) with
                 | inl e => inl (voice_to_text_error e)
                 | inr answer => inr answer
                 end /\
        Google (_get_recognition_language_code language) ∈ trace call.2)).
Proof.
  intros after fails. subst after. rewrite convert_run. cbn [fst snd files trace].
  split; [done |]. split; [done |]. split.
  - intros failed format_type later seg Hsplit Hfailed Hok.
    rewrite Hsplit, (first_success_found w audio_bytes failed later format_type seg)
      by done.
    cbn [fst snd]. rewrite lookup_insert_eq.
    split; [| split; [done |]].
    + rewrite !attempt_formats_app, attempt_formats_loaded.
      destruct (normalizing_event_cases w (Some seg) temp_file_path) as [-> | ->];
        cbn; by rewrite app_nil_r.
    + intros wav Hlen Hwav. cbn. by rewrite Hlen, Hwav.
  - intros Hfailed. rewrite (first_success_none w audio_bytes formats) by done.
    cbn [fst snd normalized]. rewrite lookup_insert_eq.
    split; [| split; [done |]].
    + by rewrite !attempt_formats_app, attempt_formats_loaded.
    + intros audio_data language fs Hdecoded.
      rewrite (voice_to_text_run w audio_data language fs audio_bytes) by done.
      rewrite (first_success_none w audio_bytes formats) by done.
      cbn [fst snd normalized]. split.
      * by intros msg ->.
      * intros audio ->. split; [done |].
        cbn [trace]. rewrite !elem_of_app. right. right. right. left.
        unfold backends_called.
        destruct (recognize_google w audio _) as [[| m | m] | text];
          apply elem_of_cons; by left.
Qed.

Lemma decoder_first_success_wins_witness :
  (attempt_formats (trace (convert Scenario.offline Scenario.clip "/tmp/a.wav" (mkState ∅ [])).2)
   = ["m4a"; "mp3"] /\
   files (convert Scenario.offline Scenario.clip "/tmp/a.wav" (mkState ∅ [])).2 !! "/tmp/a.wav"
   = Some (Scenario.wav_of Scenario.decoded)) /\
  (attempt_formats (trace (convert Scenario.isolated Scenario.clip "/tmp/a.wav" (mkState ∅ [])).2)
   = ["m4a"; "mp3"; "wav"; "ogg"; "webm"] /\
   files (convert Scenario.isolated Scenario.clip "/tmp/a.wav" (mkState ∅ [])).2 !! "/tmp/a.wav"
   = Some Scenario.clip).
Proof.
  split.
  - destruct (decoder_first_success_wins Scenario.offline Scenario.clip "/tmp/a.wav"
                (mkState ∅ [])) as (_ & _ & Hfirst & _).
    destruct (Hfirst ["m4a"] "mp3" ["wav"; "ogg"; "webm"] Scenario.decoded)
      as (Htried & _ & Hwav).
    + reflexivity.
    + constructor; [by exists "Decoding failed" | constructor].
    + reflexivity.
    + split; [exact Htried |]. apply Hwav; reflexivity.
  - destruct (decoder_first_success_wins Scenario.isolated Scenario.clip "/tmp/a.wav"
                (mkState ∅ [])) as (_ & _ & _ & Hnone).
    destruct Hnone as (Htried & Hraw & _).
    + repeat constructor; by exists "Decoding failed".
    + split; [exact Htried | exact Hraw].
Defined.

(** ** The two failures of recognition *)

Lemma reaches_recognizer_audio (w : world) (audio_data : string) (audio_bytes : bytes)
    (audio audio' : AudioData) :
  b64decode w audio_data = inr audio_bytes ->
  audio_file w (normalized w audio_bytes (first_success w audio_bytes formats).2) = inr audio ->
  reaches_recognizer w audio_data audio' -> audio' = audio.
Proof. intros Hb Ha (bytes' & Hb' & Ha'). congruence. Qed.

(** C5: a call fails with "Could not understand the audio" exactly when a
    backend that was asked understood the audio and found no speech, and
    with "... Speech recognition service unavailable" exactly when the
    primary and the offline backend are both unreachable; the two messages
    differ. *)
Theorem recognition_failures_distinct
    (w : world) (audio_data language : string) (fs : gmap string bytes) :
  foreign_messages w ->
  let outcome := (run (voice_to_text w audio_data language) fs).1 in
  let recognition_language := _get_recognition_language_code language in
  (outcome = inl could_not_understand <->
   exists audio, reaches_recognizer w audio_data audio /\
                 heard_no_speech w audio recognition_language) /\
  (outcome = inl service_unavailable <->
   exists audio, reaches_recognizer w audio_data audio /\
                 both_unreachable w audio recognition_language) /\
  could_not_understand <> service_unavailable.
Proof.
  intros (Hb64 & Hfile & Hgoogle & Hsphinx) outcome recognition_language.
  assert (Hne : could_not_understand <> service_unavailable) by discriminate.
  subst outcome. unfold could_not_understand, service_unavailable in *.
  destruct (b64decode w audio_data) as [msg | audio_bytes] eqn:Hdecoded.
  { rewrite (voice_to_text_undecoded_run w audio_data language fs msg) by done.
    cbn [fst]. split; [| split; [| done]]; split.
    - intros Heq. cbv [String.append] in Heq. simplify_eq.
    - intros (audio & (bytes' & Hb' & _) & _). congruence.
    - intros Heq. cbv [String.append] in Heq. simplify_eq. by destruct (Hb64 audio_data).
    - intros (audio & (bytes' & Hb' & _) & _). congruence. }
  rewrite (voice_to_text_run w audio_data language fs audio_bytes) by done.
  cbn [fst]. fold recognition_language.
  destruct (audio_file w _) as [msg | audio] eqn:Hopened.
  { split; [| split; [| done]]; split.
    - intros Heq. cbv [String.append] in Heq. simplify_eq.
    - intros (audio & (bytes' & Hb' & Ha') & _). congruence.
    - intros Heq. cbv [String.append] in Heq. simplify_eq. by destruct (Hfile _ Hopened).
    - intros (audio & (bytes' & Hb' & Ha') & _). congruence. }
  assert (Hreach : reaches_recognizer w audio_data audio) by (by exists audio_bytes).
  assert (Hsame : forall audio', reaches_recognizer w audio_data audio' -> audio' = audio).
  { intros audio'. by apply (reaches_recognizer_audio w audio_data audio_bytes). }
  unfold recognized, heard_no_speech, both_unreachable, unreachable.
  split; [| split; [| done]]; split.
  - intros Heq. exists audio. split; [done |].
    destruct (recognize_google w audio recognition_language) as [[| m | m] | text] eqn:Hg;
      cbv [String.append voice_to_text_error str] in Heq; simplify_eq; [by left |].
    destruct (recognize_sphinx w audio None) as [[| m' | m'] | text] eqn:Hs;
      cbv [String.append voice_to_text_error str] in Heq; simplify_eq. eauto.
  - intros (audio' & Hreach' & Hcond). rewrite (Hsame _ Hreach') in Hcond.
    destruct Hcond as [-> | [[m ->] ->]]; reflexivity.
  - intros Heq. exists audio. split; [done |].
    destruct (recognize_google w audio recognition_language) as [[| m | m] | text] eqn:Hg;
      cbv [String.append voice_to_text_error str] in Heq; simplify_eq.
    + destruct (recognize_sphinx w audio None) as [[| m' | m'] | text] eqn:Hs;
        cbv [String.append voice_to_text_error str] in Heq; simplify_eq; eauto.
      by destruct (Hsphinx audio None).
    + by destruct (Hgoogle audio recognition_language).
  - intros (audio' & Hreach' & Hcond). rewrite (Hsame _ Hreach') in Hcond.
    destruct Hcond as [[m ->] [m' ->]]. reflexivity.
Qed.

Lemma studio_foreign_messages (decodable : string -> bool) (google sphinx : exn + string)
    (saved : string + bytes) :
  google <> inl (Exception "Speech recognition service unavailable") ->
  sphinx <> inl (Exception "Speech recognition service unavailable") ->
  foreign_messages (Scenario.studio decodable google sphinx saved).
Proof.
  intros Hgoogle Hsphinx. repeat split; cbn; try done.
  intros s. by destruct (String.eqb s Scenario.clip_b64).
Qed.

Lemma silence_foreign_messages : foreign_messages Scenario.silence.
Proof. by apply studio_foreign_messages. Qed.

Lemma isolated_foreign_messages : foreign_messages Scenario.isolated.
Proof. by apply studio_foreign_messages. Qed.

Lemma recognition_failures_distinct_witness :
  (run (voice_to_text Scenario.silence Scenario.clip_b64 "en") ∅).1 = inl could_not_understand /\
  (run (voice_to_text Scenario.isolated Scenario.clip_b64 "en") ∅).1 = inl service_unavailable.
Proof.
  split.
  - apply (proj1 (recognition_failures_distinct Scenario.silence Scenario.clip_b64 "en" ∅
                    silence_foreign_messages)).
    exists (mkAudio (Scenario.wav_of Scenario.decoded)). split.
    + exists Scenario.clip. split; reflexivity.
    + left. reflexivity.
  - apply (proj1 (proj2 (recognition_failures_distinct Scenario.isolated Scenario.clip_b64 "en" ∅
                    isolated_foreign_messages))).
    exists (mkAudio Scenario.clip). split.
    + exists Scenario.clip. split; reflexivity.
    + split; [by exists "connection failed" | by exists "missing PocketSphinx module"].
Defined.

(** ** The offline fallback *)

(** C4, as the specification words it, fails: with the primary backend
    unreachable and the language "hi", the one call to the offline backend
    carries no language at all, neither "hi" nor its locale. *)
Lemma offline_fallback_language_not_passed :
  backend_calls (trace (run (voice_to_text Scenario.offline Scenario.clip_b64 "hi") ∅).2)
  = [Google "hi-IN"; Sphinx None] /\
  backend_calls (trace (run (voice_to_text Scenario.offline Scenario.clip_b64 "hi") ∅).2)
  <> [Google "hi-IN"; Sphinx (Some "hi")].
Proof. split; [by vm_compute | by vm_compute]. Qed.

(** C4, amended: in a call that reaches the recognizer with the primary
    backend unreachable, the backends are called exactly twice: the primary
    one with the mapped locale, then the offline one, once, with the audio
    alone and no language; nothing is retried after that.  When the
    primary backend answers or fails in another way, it is the only one
    called. *)
Theorem offline_fallback_once
    (w : world) (audio_data language : string) (fs : gmap string bytes) (audio : AudioData) :
  reaches_recognizer w audio_data audio ->
  let recognition_language := _get_recognition_language_code language in
  let calls := backend_calls (trace (run (voice_to_text w audio_data language) fs).2) in
  (unreachable (recognize_google w audio recognition_language) ->
   calls = [Google recognition_language; Sphinx None]) /\
  (~ unreachable (recognize_google w audio recognition_language) ->
   calls = [Google recognition_language]).
Proof.
  intros (audio_bytes & Hdecoded & Hopened) recognition_language calls. subst calls.
  rewrite (voice_to_text_run w audio_data language fs audio_bytes) by done.
  cbn [snd trace]. rewrite Hopened. fold recognition_language.
  rewrite !backend_calls_app, backend_calls_loaded, backend_calls_of_recognize.
  replace (backend_calls [normalizing_event w _ _; _]) with (@nil event)
    by (by destruct (normalizing_event_cases w (first_success w audio_bytes formats).2
                       (tmp_stem w +:+ ".wav")) as [-> | ->]).
  cbn. rewrite app_nil_r. unfold backends_called, unreachable. split.
  - by intros [msg ->].
  - intros Hreachable.
    destruct (recognize_google w audio recognition_language) as [[| msg | msg] | text];
      try done.
    destruct Hreachable. by exists msg.
Qed.

Lemma offline_fallback_once_witness :
  backend_calls (trace (run (voice_to_text Scenario.offline Scenario.clip_b64 "hi") ∅).2)
  = [Google "hi-IN"; Sphinx None] /\
  backend_calls (trace (run (voice_to_text Scenario.online Scenario.clip_b64 "hi") ∅).2)
  = [Google "hi-IN"].
Proof.
  split.
  - apply (proj1 (offline_fallback_once Scenario.offline Scenario.clip_b64 "hi" ∅
                    (mkAudio (Scenario.wav_of Scenario.decoded))
                    (ex_intro _ Scenario.clip (conj eq_refl eq_refl)))).
    by exists "connection failed".
  - apply (proj2 (offline_fallback_once Scenario.online Scenario.clip_b64 "hi" ∅
                    (mkAudio (Scenario.wav_of Scenario.decoded))
                    (ex_intro _ Scenario.clip (conj eq_refl eq_refl)))).
    intros [msg Hmsg]. discriminate Hmsg.
Defined.

(** ** Temporary files of the decoding attempts *)

(** C9, as the specification words it, fails: after the m4a attempt has
    failed, the mp3 attempt reads the very same file, and that file has not
    been unlinked in between. *)
Lemma attempts_share_one_resource :
  attempt_formats (trace (run (voice_to_text Scenario.offline Scenario.clip_b64 "en") ∅).2)
  = ["m4a"; "mp3"] /\
  attempt_paths (trace (run (voice_to_text Scenario.offline Scenario.clip_b64 "en") ∅).2)
  = ["/tmp/tmpk3v9x2.raw"; "/tmp/tmpk3v9x2.raw"] /\
  released_between_attempts
    (trace (run (voice_to_text Scenario.offline Scenario.clip_b64 "en") ∅).2) = false.
Proof. by vm_compute. Qed.

Lemma backends_called_not_unlinked (w : world) (audio : AudioData) (language : string) :
  Forall (fun ev => forall p, ev <> Unlinked p) (backends_called w audio language).
Proof.
  unfold backends_called.
  destruct (recognize_google w audio language) as [[| msg | msg] | text];
    by repeat constructor.
Qed.

Lemma backends_called_quiet (w : world) (audio : AudioData) (language : string) (raw : path) :
  Forall (fun ev => ev <> Wrote raw /\ forall format p, ev <> Loaded format p)
         (backends_called w audio language).
Proof.
  unfold backends_called.
  destruct (recognize_google w audio language) as [[| msg | msg] | text];
    by repeat constructor.
Qed.

Lemma first_success_tries (w : world) (data : bytes) (format_type : string)
    (rest : list string) :
  (first_success w data (format_type :: rest)).1 <> [].
Proof.
  cbn [first_success]. destruct (from_file w format_type data); [| done].
  by destruct (first_success w data rest).
Qed.

(** C9, amended: all decoding attempts of a call read one and the same
    temporary file, the raw file written once before the first attempt; no
    file is released between attempts; the WAV file and the raw file are
    unlinked at the very end of the call, after recognition.  The trace of
    the call begins with the creation of the WAV file and the one write of
    the raw file, goes on with the attempts, one after the other with
    nothing in between, and what follows holds no write of the raw file and
    no attempt. *)
Theorem attempts_read_one_raw_file
    (w : world) (audio_data language : string) (fs : gmap string bytes) (audio_bytes : bytes) :
  b64decode w audio_data = inr audio_bytes ->
  let temp_file_path := tmp_stem w +:+ ".wav" in
  let raw := Str.replace ".wav" ".raw" temp_file_path in
  let t := trace (run (voice_to_text w audio_data language) fs).2 in
  attempt_paths t = replicate (length (attempt_formats t)) raw /\
  (exists before,
     t = before ++ [Unlinked temp_file_path; Unlinked raw] /\
     Forall (fun ev => forall p, ev <> Unlinked p) before) /\
  (exists tried after,
     tried <> [] /\
     t = [Created temp_file_path; Wrote raw]
           ++ map (fun format_type => Loaded format_type raw) tried ++ after /\
     Forall (fun ev => ev <> Wrote raw /\ forall format p, ev <> Loaded format p) after).
Proof.
  intros Hdecoded temp_file_path raw t. subst t.
  rewrite (voice_to_text_run w audio_data language fs audio_bytes) by done.
  cbn [snd trace]. fold temp_file_path raw.
  assert (Hne : raw <> temp_file_path) by apply raw_path_ne.
  set (search := first_success w audio_bytes formats).
  set (recognition_language := _get_recognition_language_code language).
  set (called := match audio_file w _ with
                 | inl _ => []
                 | inr audio => backends_called w audio recognition_language
                 end).
  assert (Hcalled : Forall (fun ev => forall p, ev <> Unlinked p) called).
  { subst called. destruct (audio_file w _); [constructor |].
    apply backends_called_not_unlinked. }
  assert (Hsilent :
    Forall (fun ev => ev <> Wrote raw /\ forall format p, ev <> Loaded format p) called).
  { subst called. destruct (audio_file w _); [constructor |].
    apply backends_called_quiet. }
  assert (Hquiet : attempt_paths called = [] /\ attempt_formats called = []).
  { subst called. destruct (audio_file w _) as [| audio]; [done |].
    unfold backends_called.
    by destruct (recognize_google w audio recognition_language) as [[| msg | msg] | text]. }
  destruct Hquiet as [Hpaths Hformats].
  assert (Hwritten :
    normalizing_event w search.2 temp_file_path <> Wrote raw /\
    (forall p, normalizing_event w search.2 temp_file_path <> Unlinked p) /\
    (forall format p, normalizing_event w search.2 temp_file_path <> Loaded format p) /\
    attempt_paths [normalizing_event w search.2 temp_file_path] = [] /\
    attempt_formats [normalizing_event w search.2 temp_file_path] = []).
  { destruct (normalizing_event_cases w search.2 temp_file_path) as [-> | ->];
      repeat split; try done; congruence. }
  destruct Hwritten as (Hraw & Hkept & Hother & Hpaths' & Hformats').
  split; [| split].
  - rewrite !attempt_paths_app, !attempt_formats_app, attempt_paths_loaded,
      attempt_formats_loaded.
    change [normalizing_event w search.2 temp_file_path; Opened temp_file_path]
      with ([normalizing_event w search.2 temp_file_path] ++ [Opened temp_file_path]).
    rewrite !attempt_paths_app, !attempt_formats_app, Hpaths, Hformats, Hpaths', Hformats'.
    cbn. by rewrite !app_nil_r.
  - exists ([Created temp_file_path; Wrote raw]
              ++ map (fun format_type => Loaded format_type raw) search.1
              ++ [normalizing_event w search.2 temp_file_path; Opened temp_file_path]
              ++ called).
    split; [by rewrite <- !app_assoc |].
    rewrite !Forall_app. repeat split; [| | | done].
    + by repeat constructor.
    + by apply Forall_map, Forall_true.
    + by repeat constructor.
  - exists search.1,
      ([normalizing_event w search.2 temp_file_path; Opened temp_file_path]
         ++ called ++ [Unlinked temp_file_path; Unlinked raw]).
    split; [apply first_success_tries |].
    split; [done |].
    rewrite !Forall_app. repeat split; [| done |].
    + by repeat constructor.
    + by repeat constructor.
Qed.

Lemma attempts_read_one_raw_file_witness :
  attempt_paths (trace (run (voice_to_text Scenario.isolated Scenario.clip_b64 "en") ∅).2)
  = replicate
      (length (attempt_formats
                 (trace (run (voice_to_text Scenario.isolated Scenario.clip_b64 "en") ∅).2)))
      "/tmp/tmpk3v9x2.raw".
Proof.
  apply (proj1 (attempts_read_one_raw_file Scenario.isolated Scenario.clip_b64 "en" ∅
                  Scenario.clip eq_refl)).
Defined.

(** ** Synthesis *)

(** Whatever the body does, a [finally] that unlinks [p] when it exists
    leaves no file at [p], and raises nothing of its own. *)
Lemma finally_unlink_removes {A} (m : M A) (p : path) (s : state) :
  let after :=
    try_finally m (present <- Fs.exists_ p ;; if present then Fs.unlink p else ret tt) s in
  after.1 = (m s).1 /\ files after.2 !! p = None.
Proof.
  unfold try_finally, bind, Fs.exists_, Fs.unlink, ret.
  destruct (m s) as [r s1]. case_bool_decide as Hpresent.
  - destruct Hpresent as [data Hdata]. rewrite Hdata. cbn. split; [done |].
    apply lookup_delete_eq.
  - apply eq_None_not_Some in Hpresent. done.
Qed.

Lemma Qlt_bool_trans_false (x : Q) : Qlt_bool 1 x = true -> Qlt_bool x (8 # 10) = false.
Proof.
  unfold Qlt_bool. intros Hgt. apply negb_true_iff in Hgt.
  apply negb_false_iff, Qle_bool_iff.
  destruct (Qlt_le_dec 1 x) as [Hlt | Hle].
  - apply Qlt_le_weak. eapply Qlt_trans; [| exact Hlt]. reflexivity.
  - apply Qle_bool_iff in Hle. congruence.
Qed.

Lemma adjust_speed_confined (w : world) (temp_audio_path audio_path : path) (voice_speed : Q) :
  confined (adjusting voice_speed) (fun p => p = temp_audio_path \/ p = audio_path)
           (adjust_speed w temp_audio_path audio_path voice_speed).
Proof.
  unfold adjust_speed, Py.from_mp3, Py.from_file, Py.speedup, Py.export.
  confine; unfold adjusting; cbn; auto; split; try done; intros _;
    repeat split; auto using Qlt_bool_trans_false.
  unfold Qlt_bool. by apply negb_false_iff.
Qed.

(** A whole call of [text_to_speech], up to the block that adjusts the
    speed. *)
Lemma text_to_speech_run (w : world) (text language : string) (voice_speed : Q)
    (fs : gmap string bytes) :
  let tts := mkTTS text (_get_tts_language_code language) (Qlt_bool voice_speed (8 # 10)) in
  let temp_audio_path := tmp_stem w +:+ ".mp3" in
  let audio_filename := uuid4 w +:+ ".mp3" in
  let audio_path := audio_output_dir +:+ "/" +:+ audio_filename in
  let started := [Synth tts; Created temp_audio_path; Saved temp_audio_path] in
  run (text_to_speech w text language voice_speed) fs
  = match gtts_check w tts with
    | Some msg =>
        (inl (Exception ("Text to speech conversion failed: " +:+ msg)),
         mkState fs [Synth tts])
    | None =>
        match gtts_save w tts with
        | inl msg =>
            (inl (Exception ("Text to speech conversion failed: " +:+ msg)),
             mkState (<[temp_audio_path := []]> fs) started)
        | inr data =>
            let adjusted :=
              adjust_speed w temp_audio_path audio_path voice_speed
                (mkState (<[temp_audio_path := data]> fs) started) in
            (match adjusted.1 with
             | inl e => inl (Exception ("Text to speech conversion failed: " +:+ str e))
             | inr duration => inr ("/api/v1/audio/" +:+ audio_filename, duration)
             end,
             adjusted.2)
        end
    end.
Proof.
  intros tts temp_audio_path audio_filename audio_path started.
  unfold run, text_to_speech, try_except. unfold bind at 1.
  unfold Py.gTTS, bind at 1, emit at 1. cbn [fst snd files trace]. fold tts.
  destruct (gtts_check w tts) as [msg |]; [done |].
  unfold ret at 1. unfold bind at 1, Fs.NamedTemporaryFile, bind at 1, bind at 1,
    emit at 1, Fs.store at 1, ret at 1.
  cbn [fst snd files trace]. fold temp_audio_path.
  unfold bind at 1, Py.save, bind at 1, emit at 1, bind at 1, Fs.store at 1, bind at 1, lift.
  cbn [fst snd files trace]. rewrite insert_insert_eq.
  destruct (gtts_save w tts) as [msg | data]; [done |].
  unfold ret at 1, Fs.store at 1. cbn [fst snd files trace]. rewrite insert_insert_eq.
  unfold bind at 1. fold audio_filename audio_path.
  by destruct (adjust_speed w temp_audio_path audio_path voice_speed _) as [[e | duration] s'].
Qed.

Lemma filter_none (f : event -> bool) (t : list event) :
  Forall (fun ev => f ev = false) t -> List.filter f t = [].
Proof.
  induction 1 as [| ev t Hev _ IH]; [done |].
  cbn. by rewrite Hev.
Qed.

(** The block that adjusts the speed, for a speed below 0.8 or equal to
    1.0 and library calls that succeed: the audio that was saved is loaded
    and exported as it is, its length returned, the temporary file gone. *)
Lemma adjust_speed_unscaled
    (w : world) (temp_audio_path audio_path : path) (voice_speed : Q) (s : state)
    (data mp3 : bytes) (audio : AudioSegment) :
  (voice_speed < 8 # 10)%Q \/ (voice_speed == 1)%Q ->
  files s !! temp_audio_path = Some data ->
  from_file w "mp3" data = inr audio ->
  export w audio "mp3" = inr mp3 ->
  adjust_speed w temp_audio_path audio_path voice_speed s
  = (inr (duration_of audio),
     mkState (delete temp_audio_path (<[audio_path := mp3]> (files s)))
             (trace s ++ [Loaded "mp3" temp_audio_path; Exported "mp3" audio_path;
                          Unlinked temp_audio_path])).
Proof.
  intros Hplain Hdata Hload Hexport.
  assert (Hbranch :
    Qne_bool voice_speed 1 = true ->
    (if Qlt_bool 1 voice_speed then Py.speedup w audio voice_speed
     else if Qlt_bool voice_speed 1 then
       if Qle_bool (8 # 10) voice_speed then Py.speedup w audio voice_speed else ret audio
     else ret audio) = ret audio).
  { intros Hne. destruct Hplain as [Hslow | Hone].
    - rewrite (Qlt_bool_false 1 voice_speed), (Qle_bool_false _ _ Hslow).
      + by destruct (Qlt_bool voice_speed 1).
      + apply Qlt_le_weak. eapply Qlt_trans; [exact Hslow | reflexivity].
    - unfold Qne_bool in Hne. apply negb_true_iff in Hne.
      apply Qeq_bool_iff in Hone. congruence. }
  assert (Hpresent : is_Some ((<[audio_path := mp3]> (files s)) !! temp_audio_path)).
  { destruct (decide (audio_path = temp_audio_path)) as [-> | Hdiff].
    - rewrite lookup_insert_eq. by eexists.
    - rewrite lookup_insert_ne by done. by eexists. }
  unfold adjust_speed, try_finally.
  destruct (Qne_bool voice_speed 1) eqn:Hne.
  - unfold bind at 1.
    unfold Py.from_mp3. rewrite (from_file_run w temp_audio_path "mp3" data) by done.
    rewrite Hload. cbn [fst snd files trace]. unfold bind at 1. rewrite Hbranch by done.
    unfold ret at 1.
    unfold bind at 1, Py.export, bind at 1, lift at 1. rewrite Hexport.
    unfold ret at 1, bind at 1, emit at 1, Fs.store at 1. cbn [fst snd files trace].
    unfold ret at 1, bind at 1, Fs.exists_, Fs.unlink. cbn [fst snd files trace].
    rewrite bool_decide_eq_true_2 by done.
    cbn [files trace]. destruct Hpresent as [present ->]. by rewrite <- !app_assoc.
  - unfold bind at 1.
    unfold Py.from_mp3. rewrite (from_file_run w temp_audio_path "mp3" data) by done.
    rewrite Hload. cbn [fst snd files trace].
    unfold bind at 1, Py.export, bind at 1, lift at 1. rewrite Hexport.
    unfold ret at 1, bind at 1, emit at 1, Fs.store at 1. cbn [fst snd files trace].
    unfold ret at 1, bind at 1, Fs.exists_, Fs.unlink. cbn [fst snd files trace].
    rewrite bool_decide_eq_true_2 by done.
    cbn [files trace]. destruct Hpresent as [present ->]. by rewrite <- !app_assoc.
Qed.

(** A whole call at a speed below 0.8 or equal to 1.0, by what gTTS
    answers: the constructor refuses and nothing is saved; the save of the
    object that was built fails; or the MP3 that object saved is decoded and
    published as it is. *)
Lemma text_to_speech_unscaled (w : world) (text language : string) (voice_speed : Q)
    (fs : gmap string bytes) :
  (voice_speed < 8 # 10)%Q \/ (voice_speed == 1)%Q ->
  let tts := mkTTS text (_get_tts_language_code language) (Qlt_bool voice_speed (8 # 10)) in
  let temp_audio_path := tmp_stem w +:+ ".mp3" in
  let audio_filename := uuid4 w +:+ ".mp3" in
  let audio_path := audio_output_dir +:+ "/" +:+ audio_filename in
  let call := run (text_to_speech w text language voice_speed) fs in
  (forall msg,
     gtts_check w tts = Some msg ->
     call = (inl (Exception ("Text to speech conversion failed: " +:+ msg)),
             mkState fs [Synth tts])) /\
  (forall msg,
     gtts_check w tts = None ->
     gtts_save w tts = inl msg ->
     call = (inl (Exception ("Text to speech conversion failed: " +:+ msg)),
             mkState (<[temp_audio_path := []]> fs)
                     [Synth tts; Created temp_audio_path; Saved temp_audio_path])) /\
  (forall data audio mp3,
     gtts_check w tts = None ->
     gtts_save w tts = inr data ->
     from_file w "mp3" data = inr audio ->
     export w audio "mp3" = inr mp3 ->
     call = (inr ("/api/v1/audio/" +:+ audio_filename, duration_of audio),
             mkState (delete temp_audio_path
                        (<[audio_path := mp3]> (<[temp_audio_path := data]> fs)))
                     [Synth tts; Created temp_audio_path; Saved temp_audio_path;
                      Loaded "mp3" temp_audio_path; Exported "mp3" audio_path;
                      Unlinked temp_audio_path])).
Proof.
  intros Hplain tts temp_audio_path audio_filename audio_path call.
  subst call. rewrite text_to_speech_run. fold tts temp_audio_path audio_filename audio_path.
  split; [| split].
  - by intros msg ->.
  - by intros msg -> ->.
  - intros data audio mp3 -> -> Hload Hexport.
    rewrite (adjust_speed_unscaled w temp_audio_path audio_path voice_speed _ data mp3 audio)
      by (done || apply lookup_insert_eq).
    reflexivity.
Qed.

(** C7: for every speed in [0.5, 0.8) (the lower bound plays no part), the
    one object built for the synthesis backend asks for slow speech, and no
    tempo scaling is applied to the audio.  The backend is asked by the save
    of that slow object, whenever its constructor accepts the request: when
    that save fails the call fails with its error, and when it succeeds the
    MP3 it wrote is decoded and published as it is, and the duration
    returned is the length of that audio.  When the constructor refuses,
    the call fails and nothing has been saved. *)
Theorem slow_synthesis_without_scaling
    (w : world) (text language : string) (voice_speed : Q) (fs : gmap string bytes) :
  (1 # 2 <= voice_speed)%Q -> (voice_speed < 8 # 10)%Q ->
  let tts := mkTTS text (_get_tts_language_code language) true in
  let temp_audio_path := tmp_stem w +:+ ".mp3" in
  let audio_filename := uuid4 w +:+ ".mp3" in
  let audio_path := audio_output_dir +:+ "/" +:+ audio_filename in
  let call := run (text_to_speech w text language voice_speed) fs in
  synth_calls (trace call.2) = [Synth tts] /\
  speedup_calls (trace call.2) = [] /\
  (forall msg,
     gtts_check w tts = Some msg ->
     call = (inl (Exception ("Text to speech conversion failed: " +:+ msg)),
             mkState fs [Synth tts])) /\
  (forall msg,
     gtts_check w tts = None ->
     gtts_save w tts = inl msg ->
     call = (inl (Exception ("Text to speech conversion failed: " +:+ msg)),
             mkState (<[temp_audio_path := []]> fs)
                     [Synth tts; Created temp_audio_path; Saved temp_audio_path])) /\
  (forall data audio mp3,
     gtts_check w tts = None ->
     gtts_save w tts = inr data ->
     from_file w "mp3" data = inr audio ->
     export w audio "mp3" = inr mp3 ->
     call = (inr ("/api/v1/audio/" +:+ audio_filename, duration_of audio),
             mkState (delete temp_audio_path
                        (<[audio_path := mp3]> (<[temp_audio_path := data]> fs)))
                     [Synth tts; Created temp_audio_path; Saved temp_audio_path;
                      Loaded "mp3" temp_audio_path; Exported "mp3" audio_path;
                      Unlinked temp_audio_path])).
Proof.
  intros _ Hslow tts temp_audio_path audio_filename audio_path call.
  pose proof (text_to_speech_unscaled w text language voice_speed fs (or_introl Hslow))
    as Hruns.
  rewrite (Qlt_bool_true _ _ Hslow) in Hruns.
  split; [| split; [| exact Hruns]].
  all: subst call; rewrite text_to_speech_run;
    rewrite (Qlt_bool_true _ _ Hslow);
    (destruct (gtts_check w _) as [msg |]; [done |]);
    (destruct (gtts_save w _) as [msg | data]; [done |]);
    cbn [snd];
    destruct (adjust_speed_confined w (tmp_stem w +:+ ".mp3")
                (audio_output_dir +:+ "/" +:+ (uuid4 w +:+ ".mp3")) voice_speed
                (mkState (<[tmp_stem w +:+ ".mp3" := data]> fs)
                   [Synth (mkTTS text (_get_tts_language_code language) true);
                    Created (tmp_stem w +:+ ".mp3"); Saved (tmp_stem w +:+ ".mp3")]))
      as [(t' & -> & Hevents) _];
    cbn [trace]; unfold synth_calls, speedup_calls.
  - rewrite List.filter_app, (filter_none is_synth t'); [done |].
    eapply Forall_impl; [exact Hevents |]. by intros ev [Hsynth _].
  - rewrite List.filter_app, (filter_none is_speedup t'); [done |].
    eapply Forall_impl; [exact Hevents |]. intros ev [_ Hscale].
    destruct (is_speedup ev); [| done].
    destruct (Hscale eq_refl) as (_ & _ & Hfast).
    rewrite (Qlt_bool_true _ _ Hslow) in Hfast. discriminate.
Qed.

Lemma slow_synthesis_without_scaling_witness :
  run (text_to_speech Scenario.online "Hello" "en" (6 # 10)) ∅
  = (inr ("/api/v1/audio/0b7e6c1e-5a0f-4a57-9f0e-3c1d2a4b5c6d.mp3", 1200 # 1000),
     mkState (delete "/tmp/tmpk3v9x2.mp3"
                (<["app/static/audio/0b7e6c1e-5a0f-4a57-9f0e-3c1d2a4b5c6d.mp3"
                   := Scenario.wav_of Scenario.decoded]>
                   (<["/tmp/tmpk3v9x2.mp3" := Scenario.clip]> ∅)))
             [Synth (mkTTS "Hello" "en" true);
              Created "/tmp/tmpk3v9x2.mp3"; Saved "/tmp/tmpk3v9x2.mp3";
              Loaded "mp3" "/tmp/tmpk3v9x2.mp3";
              Exported "mp3" "app/static/audio/0b7e6c1e-5a0f-4a57-9f0e-3c1d2a4b5c6d.mp3";
              Unlinked "/tmp/tmpk3v9x2.mp3"]).
Proof.
  refine (proj2 (proj2 (proj2 (proj2
            (slow_synthesis_without_scaling Scenario.online "Hello" "en" (6 # 10) ∅ _ _))))
            Scenario.clip Scenario.decoded (Scenario.wav_of Scenario.decoded) _ _ _ _).
  - discriminate.
  - reflexivity.
  - reflexivity.
  - reflexivity.
  - reflexivity.
  - reflexivity.
Defined.

(** The block that adjusts the speed, for a speed of at least 0.8 other
    than 1.0 and library calls that succeed: one scaling by that speed, the
    scaled audio exported, its length returned, the temporary file gone. *)
Lemma adjust_speed_scaled
    (w : world) (temp_audio_path audio_path : path) (voice_speed : Q) (s : state)
    (data mp3 : bytes) (audio scaled : AudioSegment) :
  (8 # 10 <= voice_speed)%Q -> ~ (voice_speed == 1)%Q ->
  files s !! temp_audio_path = Some data ->
  from_file w "mp3" data = inr audio ->
  speedup w audio voice_speed = inr scaled ->
  export w scaled "mp3" = inr mp3 ->
  adjust_speed w temp_audio_path audio_path voice_speed s
  = (inr (duration_of scaled),
     mkState (delete temp_audio_path (<[audio_path := mp3]> (files s)))
             (trace s ++ [Loaded "mp3" temp_audio_path; Speedup voice_speed;
                          Exported "mp3" audio_path; Unlinked temp_audio_path])).
Proof.
  intros Hfast Hne Hdata Hload Hscale Hexport.
  assert (Hne1 : Qne_bool voice_speed 1 = true).
  { unfold Qne_bool. apply negb_true_iff.
    destruct (Qeq_bool voice_speed 1) eqn:Heq; [| done].
    by apply Qeq_bool_iff in Heq. }
  assert (Hbranch :
    (if Qlt_bool 1 voice_speed then Py.speedup w audio voice_speed
     else if Qlt_bool voice_speed 1 then
       if Qle_bool (8 # 10) voice_speed then Py.speedup w audio voice_speed else ret audio
     else ret audio) = Py.speedup w audio voice_speed).
  { destruct (Qlt_bool 1 voice_speed) eqn:Hgt; [done |].
    rewrite (proj2 (Qle_bool_iff _ _) Hfast).
    destruct (Qlt_bool voice_speed 1) eqn:Hlt; [done |].
    unfold Qlt_bool in Hgt, Hlt.
    apply negb_false_iff, Qle_bool_iff in Hgt, Hlt.
    destruct Hne. by apply Qle_antisym. }
  assert (Hpresent : is_Some ((<[audio_path := mp3]> (files s)) !! temp_audio_path)).
  { destruct (decide (audio_path = temp_audio_path)) as [-> | Hdiff].
    - rewrite lookup_insert_eq. by eexists.
    - rewrite lookup_insert_ne by done. by eexists. }
  unfold adjust_speed, try_finally. rewrite Hne1. unfold bind at 1.
  unfold Py.from_mp3. rewrite (from_file_run w temp_audio_path "mp3" data) by done.
  rewrite Hload. cbn [fst snd files trace]. unfold bind at 1. rewrite Hbranch.
  unfold Py.speedup, bind at 1, emit at 1, lift at 1. rewrite Hscale.
  cbn [fst snd files trace]. unfold ret at 1.
  unfold bind at 1, Py.export, bind at 1, lift at 1. rewrite Hexport.
  unfold ret at 1, bind at 1, emit at 1, Fs.store at 1. cbn [fst snd files trace].
  unfold ret at 1, bind at 1, Fs.exists_, Fs.unlink. cbn [fst snd files trace].
  rewrite bool_decide_eq_true_2 by done.
  cbn [files trace]. destruct Hpresent as [present ->]. by rewrite <- !app_assoc.
Qed.

(** X13: for a speed in [0.8, 2.0] other than 1.0 (the upper bound plays no
    part), when every library call succeeds: the audio is scaled once, by
    the requested speed, the scaled audio is what is exported, and the
    duration returned is the length of the scaled audio. *)
Lemma tempo_scaling_applied
    (w : world) (text language : string) (voice_speed : Q) (fs : gmap string bytes)
    (data mp3 : bytes) (audio scaled : AudioSegment) :
  (8 # 10 <= voice_speed)%Q -> ~ (voice_speed == 1)%Q ->
  let tts := mkTTS text (_get_tts_language_code language) false in
  let temp_audio_path := tmp_stem w +:+ ".mp3" in
  let audio_path := audio_output_dir +:+ "/" +:+ (uuid4 w +:+ ".mp3") in
  gtts_check w tts = None ->
  gtts_save w tts = inr data ->
  from_file w "mp3" data = inr audio ->
  speedup w audio voice_speed = inr scaled ->
  export w scaled "mp3" = inr mp3 ->
  run (text_to_speech w text language voice_speed) fs
  = (inr ("/api/v1/audio/" +:+ (uuid4 w +:+ ".mp3"), duration_of scaled),
     mkState (delete temp_audio_path (<[audio_path := mp3]> (<[temp_audio_path := data]> fs)))
             [Synth tts; Created temp_audio_path; Saved temp_audio_path;
              Loaded "mp3" temp_audio_path; Speedup voice_speed;
              Exported "mp3" audio_path; Unlinked temp_audio_path]).
Proof.
  intros Hfast Hne tts temp_audio_path audio_path Hcheck Hsave Hload Hscale Hexport.
  rewrite text_to_speech_run. rewrite (Qlt_bool_false _ _ Hfast).
  fold tts temp_audio_path audio_path. rewrite Hcheck, Hsave.
  rewrite (adjust_speed_scaled w temp_audio_path audio_path voice_speed _ data mp3 audio scaled)
    by (done || apply lookup_insert_eq).
  reflexivity.
Qed.

(** pydub at a playback speed of 0.8 on a clip of 1200 ms: the chunks are
    of 150 - 30 = 120 ms, the crossfade is min(25, -30 - 1) = -31 ms, and 1 ms
    is cut from every chunk but the last; each of the eight chunks appended
    with that crossfade adds 31 ms to the first 119 ms, and the last chunk
    adds its 120 ms. *)
Lemma speedup_below_one :
  Pydub.int (150 * (1 - 1 / (8 # 10)) / (1 / (8 # 10))) = (-30)%Z /\
  Pydub.make_chunks 1200 120 = replicate 10 120%Z /\
  Pydub.append 119 119 (-31) = Some 150%Z /\
  Pydub.speedup 1200 (8 # 10) = Some 487%Z.
Proof. by vm_compute. Qed.

(** At a playback speed of 2.0 the same clip is cut into four chunks of
    300 ms; 175 ms are kept of each of the first three, which are joined
    with a crossfade of 25 ms, and the last chunk is added whole. *)
Lemma speedup_at_two :
  Pydub.make_chunks 1200 300 = replicate 4 300%Z /\
  Pydub.append 175 175 25 = Some 325%Z /\
  Pydub.speedup 1200 2 = Some 775%Z.
Proof. by vm_compute. Qed.

(** C6 fails at a speed of 0.8.  gTTS answers a clip of 1200 ms, and 1.2 s
    is the duration returned at speed 1.0.  At speed 0.8 the service, under
    its comment "Slow down", calls [speedup] with a playback speed of 0.8,
    once, and pydub makes the clip shorter, not longer: 487 ms.  The
    duration returned, 0.487 s, is the length of the scaled audio that is
    exported, and it is not within 10% of 1.2 / 0.8 = 1.5 s. *)
Theorem slowing_down_shortens_the_clip :
  let temp_audio_path := "/tmp/tmpk3v9x2.mp3" in
  let audio_filename := "0b7e6c1e-5a0f-4a57-9f0e-3c1d2a4b5c6d.mp3" in
  let baseline := run (text_to_speech Bench.chunked "Hello" "en" 1) ∅ in
  let slowed := run (text_to_speech Bench.chunked "Hello" "en" (8 # 10)) ∅ in
  baseline.1 = inr ("/api/v1/audio/" +:+ audio_filename, 1200 # 1000) /\
  slowed.1 = inr ("/api/v1/audio/" +:+ audio_filename, 487 # 1000) /\
  trace slowed.2
  = [Synth (mkTTS "Hello" "en" false); Created temp_audio_path; Saved temp_audio_path;
     Loaded "mp3" temp_audio_path; Speedup (8 # 10);
     Exported "mp3" ("app/static/audio/" +:+ audio_filename); Unlinked temp_audio_path] /\
  files slowed.2 !! ("app/static/audio/" +:+ audio_filename)
  = Some (Scenario.wav_of (mkSegment (samples Scenario.decoded) 487)) /\
  spec_within_tolerance (1 # 10) (487 # 1000) (1200 # 1000) (8 # 10) = false.
Proof. by vm_compute. Qed.

(** ** Temporary files after a call *)

(** [voice_to_text] leaves neither of its two temporary files, on any exit:
    a call that gets past base64 ends with both names unlinked, a call that
    does not has created nothing. *)
Lemma voice_to_text_leaves_no_temp
    (w : world) (audio_data language : string) (fs : gmap string bytes) :
  let temp_file_path := tmp_stem w +:+ ".wav" in
  let raw := Str.replace ".wav" ".raw" temp_file_path in
  files (run (voice_to_text w audio_data language) fs).2
  = match b64decode w audio_data with
    | inl _ => fs
    | inr _ => delete raw (delete temp_file_path fs)
    end.
Proof.
  intros temp_file_path raw.
  destruct (b64decode w audio_data) as [msg | audio_bytes] eqn:Hdecoded.
  - by rewrite (voice_to_text_undecoded_run w audio_data language fs msg).
  - by rewrite (voice_to_text_run w audio_data language fs audio_bytes).
Qed.

(** Once gTTS has saved the speech, [text_to_speech] leaves no temporary
    file either, whatever happens to the audio afterwards. *)
Lemma text_to_speech_removes_temp_after_save
    (w : world) (text language : string) (voice_speed : Q) (fs : gmap string bytes)
    (data : bytes) :
  let tts := mkTTS text (_get_tts_language_code language) (Qlt_bool voice_speed (8 # 10)) in
  gtts_check w tts = None ->
  gtts_save w tts = inr data ->
  files (run (text_to_speech w text language voice_speed) fs).2 !! (tmp_stem w +:+ ".mp3")
  = None.
Proof.
  intros tts Hcheck Hsave. rewrite text_to_speech_run. fold tts.
  rewrite Hcheck, Hsave. cbn [snd]. unfold adjust_speed.
  apply finally_unlink_removes.
Qed.

(** When [tts.save] raises, the temporary file made for it stays behind:
    the [with] block that saves is entered before the [try] whose [finally]
    unlinks the file. *)
Lemma text_to_speech_leaks_when_save_fails
    (w : world) (text language : string) (voice_speed : Q) (fs : gmap string bytes)
    (msg : string) :
  let tts := mkTTS text (_get_tts_language_code language) (Qlt_bool voice_speed (8 # 10)) in
  let temp_audio_path := tmp_stem w +:+ ".mp3" in
  gtts_check w tts = None ->
  gtts_save w tts = inl msg ->
  run (text_to_speech w text language voice_speed) fs
  = (inl (Exception ("Text to speech conversion failed: " +:+ msg)),
     mkState (<[temp_audio_path := []]> fs)
             [Synth tts; Created temp_audio_path; Saved temp_audio_path]).
Proof.
  intros tts temp_audio_path Hcheck Hsave. rewrite text_to_speech_run. fold tts.
  by rewrite Hcheck, Hsave.
Qed.

(** C1 does not hold of [text_to_speech]: when the synthesis backend cannot
    be reached, the call raises and the temporary file it created is still
    on the filesystem, which held no file before the call. *)
Theorem synthesis_failure_leaves_temp_file :
  (run (text_to_speech Scenario.isolated "Hello" "en" 1) ∅).1
  = inl (Exception "Text to speech conversion failed: Connection error") /\
  files (run (text_to_speech Scenario.isolated "Hello" "en" 1) ∅).2 !! "/tmp/tmpk3v9x2.mp3"
  = Some [] /\
  Unlinked "/tmp/tmpk3v9x2.mp3"
    ∉ trace (run (text_to_speech Scenario.isolated "Hello" "en" 1) ∅).2.
Proof.
  rewrite (text_to_speech_leaks_when_save_fails Scenario.isolated "Hello" "en" 1 ∅
             "Connection error") by reflexivity.
  split; [reflexivity |]. split; [apply lookup_insert_eq |].
  cbn [snd trace]. intros Hin.
  repeat (apply elem_of_cons in Hin as [Hin | Hin]; [discriminate Hin |]).
  by apply elem_of_nil in Hin.
Qed.

(** * Further properties of the speech service *)

(** ** The filesystem around a call *)

(** X1: when the two names a call of [voice_to_text] will use are free, the
    call leaves the filesystem exactly as it found it, whether it returns or
    raises. *)
Theorem voice_to_text_restores_filesystem
    (w : world) (audio_data language : string) (fs : gmap string bytes) :
  let temp_file_path := tmp_stem w +:+ ".wav" in
  let raw := Str.replace ".wav" ".raw" temp_file_path in
  fs !! temp_file_path = None ->
  fs !! raw = None ->
  files (run (voice_to_text w audio_data language) fs).2 = fs.
Proof.
  intros temp_file_path raw Htemp Hraw.
  rewrite voice_to_text_leaves_no_temp. fold temp_file_path raw.
  destruct (b64decode w audio_data); [done |].
  by rewrite (delete_id _ _ Htemp), (delete_id _ _ Hraw).
Qed.

Lemma voice_to_text_restores_filesystem_witness :
  files (run (voice_to_text Scenario.silence Scenario.clip_b64 "en")
           (<["/etc/hosts" := []]> ∅)).2
  = <["/etc/hosts" := []]> ∅.
Proof.
  apply (voice_to_text_restores_filesystem Scenario.silence Scenario.clip_b64 "en"
           (<["/etc/hosts" := []]> ∅)); reflexivity.
Defined.

(** X2: [text_to_speech] touches two paths only, its temporary file and
    the MP3 it publishes; every other file is as before, on every exit. *)
Theorem text_to_speech_touches_two_paths
    (w : world) (text language : string) (voice_speed : Q) (fs : gmap string bytes)
    (p : path) :
  p <> tmp_stem w +:+ ".mp3" ->
  p <> audio_output_dir +:+ "/" +:+ (uuid4 w +:+ ".mp3") ->
  files (run (text_to_speech w text language voice_speed) fs).2 !! p = fs !! p.
Proof.
  intros Htemp Hout. rewrite text_to_speech_run.
  destruct (gtts_check w _) as [msg |]; [done |].
  destruct (gtts_save w _) as [msg | data]; cbn [snd files].
  - by rewrite lookup_insert_ne.
  - destruct (adjust_speed_confined w (tmp_stem w +:+ ".mp3")
                (audio_output_dir +:+ "/" +:+ (uuid4 w +:+ ".mp3")) voice_speed
                (mkState (<[tmp_stem w +:+ ".mp3" := data]> fs)
                   [Synth (mkTTS text (_get_tts_language_code language)
                             (Qlt_bool voice_speed (8 # 10)));
                    Created (tmp_stem w +:+ ".mp3"); Saved (tmp_stem w +:+ ".mp3")]))
      as [_ Hframe].
    rewrite Hframe by (intros [-> | ->]; done).
    cbn [files]. by rewrite lookup_insert_ne.
Qed.

Lemma text_to_speech_touches_two_paths_witness :
  files (run (text_to_speech Scenario.online "Hello" "en" 2) (<["/etc/hosts" := []]> ∅)).2
    !! "/etc/hosts"
  = Some [].
Proof.
  rewrite (text_to_speech_touches_two_paths Scenario.online "Hello" "en" 2
             (<["/etc/hosts" := []]> ∅) "/etc/hosts"); [reflexivity | discriminate ..].
Defined.

(** X3: with a free temporary name, a call of [text_to_speech] leaves its
    temporary file behind exactly when gTTS was built and [tts.save]
    raised; on every other exit the file is gone. *)
Theorem temp_file_left_iff_save_fails
    (w : world) (text language : string) (voice_speed : Q) (fs : gmap string bytes) :
  let tts := mkTTS text (_get_tts_language_code language) (Qlt_bool voice_speed (8 # 10)) in
  let temp_audio_path := tmp_stem w +:+ ".mp3" in
  fs !! temp_audio_path = None ->
  is_Some (files (run (text_to_speech w text language voice_speed) fs).2 !! temp_audio_path)
  <-> gtts_check w tts = None /\ exists msg, gtts_save w tts = inl msg.
Proof.
  intros tts temp_audio_path Hfree. rewrite text_to_speech_run. fold tts temp_audio_path.
  destruct (gtts_check w tts) as [msg |] eqn:Hcheck.
  { cbn [snd files]. rewrite Hfree. split; [by intros [? ?] | by intros [? _]]. }
  destruct (gtts_save w tts) as [msg | data] eqn:Hsave; cbn [snd files].
  - rewrite lookup_insert_eq. split; [eauto | by eexists].
  - unfold adjust_speed.
    rewrite (proj2 (finally_unlink_removes _ temp_audio_path _)).
    split; [by intros [? ?] | by intros [_ [? ?]]].
Qed.

Lemma temp_file_left_iff_save_fails_witness :
  is_Some (files (run (text_to_speech Scenario.isolated "Hello" "en" 1) ∅).2
             !! "/tmp/tmpk3v9x2.mp3").
Proof.
  apply (proj2 (temp_file_left_iff_save_fails Scenario.isolated "Hello" "en" 1 ∅
                  (lookup_empty _))).
  split; [reflexivity | by exists "Connection error"].
Defined.

(** X4: whatever tempfile names the WAV file, the raw copy of the input has
    another name: writing it never overwrites the WAV file. *)
Theorem raw_file_is_another_file (w : world) :
  Str.replace ".wav" ".raw" (tmp_stem w +:+ ".wav") <> tmp_stem w +:+ ".wav".
Proof. apply raw_path_ne. Qed.

(** ** What the two operations raise and return *)

(** The two texts of what [voice_to_text] raises. *)
Lemma voice_to_text_raises
    (w : world) (audio_data language : string) (fs : gmap string bytes) (e : exn) :
  (run (voice_to_text w audio_data language) fs).1 = inl e ->
  e = could_not_understand \/
  exists cause, e = Exception ("Voice to text conversion failed: " +:+ cause).
Proof.
  intros Hraised.
  destruct (b64decode w audio_data) as [msg | audio_bytes] eqn:Hdecoded.
  - rewrite (voice_to_text_undecoded_run w audio_data language fs msg) in Hraised by done.
    cbn in Hraised. simplify_eq. eauto.
  - rewrite (voice_to_text_run w audio_data language fs audio_bytes) in Hraised by done.
    cbn [fst] in Hraised.
    destruct (audio_file w _) as [msg | audio]; [simplify_eq; eauto |].
    unfold recognized in Hraised.
    destruct (recognize_google w audio _) as [[| m | m] | text];
      try (cbn in Hraised; simplify_eq; by eauto).
    destruct (recognize_sphinx w audio None) as [[| m' | m'] | text];
      cbn in Hraised; simplify_eq; eauto.
Qed.

(** X5: [voice_to_text] raises nothing but a plain [Exception], with one
    of two texts: "Could not understand the audio", or "Voice to text
    conversion failed: " followed by the cause.  Its clause for
    [sr.RequestError] ("Speech recognition service error: ...") never
    fires: the inner handlers have replaced every such error before. *)
Theorem voice_to_text_error_shapes
    (w : world) (audio_data language : string) (fs : gmap string bytes) (e : exn) :
  (run (voice_to_text w audio_data language) fs).1 = inl e ->
  (e = could_not_understand \/
   exists cause, e = Exception ("Voice to text conversion failed: " +:+ cause)) /\
  (forall cause, e <> Exception ("Speech recognition service error: " +:+ cause)).
Proof.
  intros Hraised. pose proof (voice_to_text_raises _ _ _ _ _ Hraised) as Hshape.
  split; [done |].
  intros cause ->. destruct Hshape as [Heq | [cause' Heq]];
    cbv [String.append could_not_understand] in Heq; discriminate.
Qed.

Lemma voice_to_text_error_shapes_witness :
  (Exception "Voice to text conversion failed: Speech recognition service unavailable"
   = could_not_understand \/
   exists cause,
     Exception "Voice to text conversion failed: Speech recognition service unavailable"
     = Exception ("Voice to text conversion failed: " +:+ cause)) /\
  (forall cause,
     Exception "Voice to text conversion failed: Speech recognition service unavailable"
     <> Exception ("Speech recognition service error: " +:+ cause)).
Proof.
  apply (voice_to_text_error_shapes Scenario.isolated Scenario.clip_b64 "en" ∅).
  reflexivity.
Defined.

(** X6: [text_to_speech] raises nothing but "Text to speech conversion
    failed: " followed by the cause, and what it returns is the URL
    [/api/v1/audio/<uuid>.mp3] of the identifier drawn for the call. *)
Theorem text_to_speech_outcome_shapes
    (w : world) (text language : string) (voice_speed : Q) (fs : gmap string bytes) :
  match (run (text_to_speech w text language voice_speed) fs).1 with
  | inl e => exists cause, e = Exception ("Text to speech conversion failed: " +:+ cause)
  | inr (relative_path, _) => relative_path = "/api/v1/audio/" +:+ (uuid4 w +:+ ".mp3")
  end.
Proof.
  rewrite text_to_speech_run.
  destruct (gtts_check w _) as [msg |]; [by eexists |].
  destruct (gtts_save w _) as [msg | data]; [by eexists |].
  cbn [fst]. destruct (adjust_speed w _ _ voice_speed _).1 as [e | duration];
    [by eexists | done].
Qed.

(** What has happened when [voice_to_text] returns. *)
Lemma voice_to_text_returns
    (w : world) (audio_data language : string) (fs : gmap string bytes)
    (text : string) (confidence : Q) :
  (run (voice_to_text w audio_data language) fs).1 = inr (text, confidence) ->
  exists audio,
    reaches_recognizer w audio_data audio /\
    ((recognize_google w audio (_get_recognition_language_code language) = inr text /\
      confidence = 85 # 100) \/
     (unreachable (recognize_google w audio (_get_recognition_language_code language)) /\
      recognize_sphinx w audio None = inr text /\ confidence = 7 # 10)).
Proof.
  unfold unreachable.
  destruct (b64decode w audio_data) as [msg | audio_bytes] eqn:Hdecoded.
  { by rewrite (voice_to_text_undecoded_run w audio_data language fs msg). }
  rewrite (voice_to_text_run w audio_data language fs audio_bytes) by done.
  cbn [fst].
  destruct (audio_file w _) as [msg | audio] eqn:Hopened; [done |].
  unfold recognized. intros Heq. exists audio. split; [by exists audio_bytes |].
  destruct (recognize_google w audio _) as [[| m | m] | answer];
    simplify_eq; [| by left].
  destruct (recognize_sphinx w audio None) as [[| m' | m'] | answer];
    simplify_eq. right. eauto.
Qed.

(** X7: [voice_to_text] returns a text exactly when the call reaches the
    recognizer and a backend answers: the text of the primary backend with
    confidence 0.85, or, the primary backend being unreachable, the text of
    the offline backend with confidence 0.7. *)
Theorem voice_to_text_success
    (w : world) (audio_data language : string) (fs : gmap string bytes)
    (text : string) (confidence : Q) :
  let recognition_language := _get_recognition_language_code language in
  (run (voice_to_text w audio_data language) fs).1 = inr (text, confidence) <->
  exists audio,
    reaches_recognizer w audio_data audio /\
    ((recognize_google w audio recognition_language = inr text /\ confidence = 85 # 100) \/
     (unreachable (recognize_google w audio recognition_language) /\
      recognize_sphinx w audio None = inr text /\ confidence = 7 # 10)).
Proof.
  intros recognition_language. split; [apply voice_to_text_returns |].
  unfold unreachable.
  intros (audio & (audio_bytes & Hdecoded & Hopened) & Hcase).
  rewrite (voice_to_text_run w audio_data language fs audio_bytes) by done.
  cbn [fst]. fold recognition_language. rewrite Hopened. unfold recognized.
  destruct Hcase as [[-> ->] | ([m ->] & -> & ->)]; reflexivity.
Qed.

Lemma voice_to_text_success_witness :
  (run (voice_to_text Scenario.offline Scenario.clip_b64 "hi") ∅).1 = inr ("hello", 7 # 10).
Proof.
  apply (proj2 (voice_to_text_success Scenario.offline Scenario.clip_b64 "hi" ∅
                  "hello" (7 # 10))).
  exists (mkAudio (Scenario.wav_of Scenario.decoded)). split.
  - exists Scenario.clip. split; reflexivity.
  - right. split; [by exists "connection failed" | split; reflexivity].
Defined.

(** ** The language tables against the settings *)

(** X8: the synthesis mapper changes one code only: every code other than
    "zh" is passed to gTTS as it is. *)
Theorem tts_code_unchanged_except_zh (language : string) :
  language <> "zh" -> _get_tts_language_code language = language.
Proof.
  intros Hzh. unfold _get_tts_language_code, get.
  destruct (tts_mapping !! language) as [v |] eqn:Hlook; [| done].
  apply elem_of_list_to_map_2 in Hlook.
  repeat (apply elem_of_cons in Hlook as [Hlook | Hlook]; [by simplify_eq |]).
  by apply elem_of_nil in Hlook.
Qed.

Lemma tts_code_unchanged_except_zh_witness :
  _get_tts_language_code "kn" = "kn" /\ _get_tts_language_code "sw" = "sw".
Proof.
  split; apply tts_code_unchanged_except_zh; discriminate.
Defined.

Lemma supported_cases (language : string) :
  Dict.contains settings.supported_languages language = true ->
  language ∈ Dict.keys settings.supported_languages.
Proof.
  unfold settings.supported_languages. cbn [Dict.contains Dict.keys map fst].
  repeat match goal with
         | |- context [String.eqb ?code language] =>
             destruct (String.eqb_spec code language) as [<- | _];
             [ intros _; apply list_elem_of_In; cbn; tauto |]
         end.
  done.
Qed.

(** X9: every language of the settings has a recognition locale of its own,
    the code followed by a hyphen and a two-letter region; for none of them
    does the recognition mapper fall back on its default. *)
Theorem supported_language_has_locale (language : string) :
  Dict.contains settings.supported_languages language = true ->
  is_Some (recognition_mapping !! language) /\
  exists region,
    _get_recognition_language_code language = language +:+ "-" +:+ region /\
    String.length region = 2%nat.
Proof.
  intros Hin. apply supported_cases in Hin.
  cbn [Dict.keys settings.supported_languages map fst] in Hin.
  repeat (apply elem_of_cons in Hin as [-> | Hin];
          [ split; [by eexists |];
            match goal with
            | |- exists region, _get_recognition_language_code ?l = _ /\ _ =>
                let r := eval vm_compute in
                  (String.substring 3 2 (_get_recognition_language_code l)) in
                exists r; split; reflexivity
            end |]).
  by apply elem_of_nil in Hin.
Qed.

Lemma supported_language_has_locale_witness :
  is_Some (recognition_mapping !! "ur") /\
  exists region,
    _get_recognition_language_code "ur" = "ur" +:+ "-" +:+ region /\
    String.length region = 2%nat.
Proof.
  apply (supported_language_has_locale "ur"). reflexivity.
Defined.

(** ** Tempo scaling and the published file *)

(** Every tempo scaling of a call, with the tests that led to it. *)
Lemma text_to_speech_scalings
    (w : world) (text language : string) (voice_speed : Q) (fs : gmap string bytes) :
  Forall (fun ev => is_speedup ev = true ->
                    ev = Speedup voice_speed /\
                    Qne_bool voice_speed 1 = true /\
                    Qlt_bool voice_speed (8 # 10) = false)
         (trace (run (text_to_speech w text language voice_speed) fs).2).
Proof.
  rewrite text_to_speech_run.
  destruct (gtts_check w _) as [msg |]; [by repeat constructor |].
  destruct (gtts_save w _) as [msg | data]; [by repeat constructor |].
  cbn [snd].
  destruct (adjust_speed_confined w (tmp_stem w +:+ ".mp3")
              (audio_output_dir +:+ "/" +:+ (uuid4 w +:+ ".mp3")) voice_speed
              (mkState (<[tmp_stem w +:+ ".mp3" := data]> fs)
                 [Synth (mkTTS text (_get_tts_language_code language)
                           (Qlt_bool voice_speed (8 # 10)));
                  Created (tmp_stem w +:+ ".mp3"); Saved (tmp_stem w +:+ ".mp3")]))
    as [(t' & -> & Hevents) _].
  cbn [trace]. apply Forall_app. split; [by repeat constructor |].
  eapply Forall_impl; [exact Hevents |]. by intros ev [_ Hscale].
Qed.

(** X10: on every path of [text_to_speech], a tempo scaling is by the
    requested speed and by nothing else, and happens only for a speed of at
    least 0.8 that is not 1.0. *)
Theorem scaling_only_by_requested_speed
    (w : world) (text language : string) (voice_speed : Q) (fs : gmap string bytes) :
  Forall (fun ev => is_speedup ev = true ->
                    ev = Speedup voice_speed /\
                    (8 # 10 <= voice_speed)%Q /\ ~ (voice_speed == 1)%Q)
         (trace (run (text_to_speech w text language voice_speed) fs).2).
Proof.
  eapply Forall_impl; [apply text_to_speech_scalings |].
  intros ev Hscale Hev. destruct (Hscale Hev) as (-> & Hne & Hfast).
  split; [done |]. split.
  - unfold Qlt_bool in Hfast. by apply negb_false_iff, Qle_bool_iff in Hfast.
  - intros Heq. unfold Qne_bool in Hne. apply negb_true_iff in Hne.
    apply Qeq_bool_iff in Heq. congruence.
Qed.

(** X11: at a speed equal to 1.0 the one object built for gTTS asks for
    normal speech, and the audio is not scaled.  The backend is asked by the
    save of that object, whenever its constructor accepts the request: when
    that save fails the call fails with its error, and when it succeeds the
    MP3 it wrote is decoded and published as it is, and the duration
    returned is the length of that audio.  When the constructor refuses,
    the call fails and nothing has been saved. *)
Theorem unit_speed_is_plain
    (w : world) (text language : string) (voice_speed : Q) (fs : gmap string bytes) :
  (voice_speed == 1)%Q ->
  let tts := mkTTS text (_get_tts_language_code language) false in
  let temp_audio_path := tmp_stem w +:+ ".mp3" in
  let audio_filename := uuid4 w +:+ ".mp3" in
  let audio_path := audio_output_dir +:+ "/" +:+ audio_filename in
  let call := run (text_to_speech w text language voice_speed) fs in
  synth_calls (trace call.2) = [Synth tts] /\
  speedup_calls (trace call.2) = [] /\
  (forall msg,
     gtts_check w tts = Some msg ->
     call = (inl (Exception ("Text to speech conversion failed: " +:+ msg)),
             mkState fs [Synth tts])) /\
  (forall msg,
     gtts_check w tts = None ->
     gtts_save w tts = inl msg ->
     call = (inl (Exception ("Text to speech conversion failed: " +:+ msg)),
             mkState (<[temp_audio_path := []]> fs)
                     [Synth tts; Created temp_audio_path; Saved temp_audio_path])) /\
  (forall data audio mp3,
     gtts_check w tts = None ->
     gtts_save w tts = inr data ->
     from_file w "mp3" data = inr audio ->
     export w audio "mp3" = inr mp3 ->
     call = (inr ("/api/v1/audio/" +:+ audio_filename, duration_of audio),
             mkState (delete temp_audio_path
                        (<[audio_path := mp3]> (<[temp_audio_path := data]> fs)))
                     [Synth tts; Created temp_audio_path; Saved temp_audio_path;
                      Loaded "mp3" temp_audio_path; Exported "mp3" audio_path;
                      Unlinked temp_audio_path])).
Proof.
  intros Hone tts temp_audio_path audio_filename audio_path call.
  assert (Hfast : Qlt_bool voice_speed (8 # 10) = false).
  { apply Qlt_bool_false. rewrite Hone. discriminate. }
  pose proof (text_to_speech_unscaled w text language voice_speed fs (or_intror Hone))
    as Hruns.
  rewrite Hfast in Hruns.
  split; [| split; [| exact Hruns]].
  - subst call. rewrite text_to_speech_run, Hfast.
    destruct (gtts_check w _) as [msg |]; [done |].
    destruct (gtts_save w _) as [msg | data]; [done |].
    cbn [snd].
    destruct (adjust_speed_confined w (tmp_stem w +:+ ".mp3")
                (audio_output_dir +:+ "/" +:+ (uuid4 w +:+ ".mp3")) voice_speed
                (mkState (<[tmp_stem w +:+ ".mp3" := data]> fs)
                   [Synth (mkTTS text (_get_tts_language_code language) false);
                    Created (tmp_stem w +:+ ".mp3"); Saved (tmp_stem w +:+ ".mp3")]))
      as [(t' & -> & Hevents) _].
    cbn [trace]. unfold synth_calls.
    rewrite List.filter_app, (filter_none is_synth t'); [done |].
    eapply Forall_impl; [exact Hevents |]. by intros ev [Hsynth _].
  - unfold speedup_calls. apply filter_none.
    eapply Forall_impl; [apply text_to_speech_scalings |].
    intros ev Hscale. cbn beta in Hscale. destruct (is_speedup ev); [| done].
    destruct (Hscale eq_refl) as (_ & Hne & _).
    unfold Qne_bool in Hne. apply negb_true_iff in Hne.
    apply Qeq_bool_iff in Hone. congruence.
Qed.

Lemma unit_speed_is_plain_witness :
  run (text_to_speech Scenario.online "Hello" "en" (2 # 2)) ∅
  = (inr ("/api/v1/audio/0b7e6c1e-5a0f-4a57-9f0e-3c1d2a4b5c6d.mp3", 1200 # 1000),
     mkState (delete "/tmp/tmpk3v9x2.mp3"
                (<["app/static/audio/0b7e6c1e-5a0f-4a57-9f0e-3c1d2a4b5c6d.mp3"
                   := Scenario.wav_of Scenario.decoded]>
                   (<["/tmp/tmpk3v9x2.mp3" := Scenario.clip]> ∅)))
             [Synth (mkTTS "Hello" "en" false);
              Created "/tmp/tmpk3v9x2.mp3"; Saved "/tmp/tmpk3v9x2.mp3";
              Loaded "mp3" "/tmp/tmpk3v9x2.mp3";
              Exported "mp3" "app/static/audio/0b7e6c1e-5a0f-4a57-9f0e-3c1d2a4b5c6d.mp3";
              Unlinked "/tmp/tmpk3v9x2.mp3"]).
Proof.
  refine (proj2 (proj2 (proj2 (proj2
            (unit_speed_is_plain Scenario.online "Hello" "en" (2 # 2) ∅ _))))
            Scenario.clip Scenario.decoded (Scenario.wav_of Scenario.decoded) _ _ _ _).
  - reflexivity.
  - reflexivity.
  - reflexivity.
  - reflexivity.
  - reflexivity.
Defined.

(** The block that adjusts the speed returns a duration only after it has
    exported an audio to the published path; the duration is the length of
    that audio, and of its two paths only the published one is left. *)
Lemma adjust_speed_returns
    (w : world) (temp_audio_path audio_path : path) (voice_speed : Q) (s : state)
    (duration : Q) :
  (adjust_speed w temp_audio_path audio_path voice_speed s).1 = inr duration ->
  exists audio mp3,
    export w audio "mp3" = inr mp3 /\
    duration = duration_of audio /\
    files (adjust_speed w temp_audio_path audio_path voice_speed s).2
    = delete temp_audio_path (<[audio_path := mp3]> (files s)).
Proof.
  unfold adjust_speed, try_finally.
  set (body := if Qne_bool voice_speed 1 then _ else _).
  assert (Hbody : forall d s1, body s = (inr d, s1) ->
            exists audio mp3,
              export w audio "mp3" = inr mp3 /\ d = duration_of audio /\
              files s1 = <[audio_path := mp3]> (files s) /\
              is_Some (files s !! temp_audio_path)).
  { subst body. intros d s1.
    destruct (files s !! temp_audio_path) as [data |] eqn:Hdata.
    all: destruct (Qne_bool voice_speed 1), (Qlt_bool 1 voice_speed),
           (Qlt_bool voice_speed 1), (Qle_bool (8 # 10) voice_speed).
    all: unfold Py.from_mp3, Py.from_file, Py.speedup, Py.export, bind, emit, lift,
           Fs.read, Fs.store, ret, raise.
    all: cbn [fst snd files trace]; rewrite Hdata.
    all: repeat (case_match; simplify_eq; try done).
    all: intros; simplify_eq; eauto 10. }
  destruct (body s) as [[e | d] s1] eqn:Hrun.
  { unfold bind, Fs.exists_, Fs.unlink, ret.
    by repeat (case_match; try done). }
  destruct (Hbody d s1 eq_refl) as (audio & mp3 & Hexport & -> & Hfiles & [data Hdata]).
  assert (Hpresent : is_Some (files s1 !! temp_audio_path)).
  { rewrite Hfiles. destruct (decide (audio_path = temp_audio_path)) as [-> | Hdiff].
    - rewrite lookup_insert_eq. by eexists.
    - rewrite lookup_insert_ne by done. by eexists. }
  unfold bind, Fs.exists_, Fs.unlink, ret. rewrite bool_decide_eq_true_2 by done.
  destruct Hpresent as [present ->]. cbn [fst snd files].
  intros [= <-]. exists audio, mp3. by rewrite Hfiles.
Qed.

(** What has happened when [text_to_speech] returns. *)
Lemma text_to_speech_returns
    (w : world) (text language : string) (voice_speed : Q) (fs : gmap string bytes)
    (relative_path : string) (duration : Q) :
  let temp_audio_path := tmp_stem w +:+ ".mp3" in
  let audio_path := audio_output_dir +:+ "/" +:+ (uuid4 w +:+ ".mp3") in
  audio_path <> temp_audio_path ->
  (run (text_to_speech w text language voice_speed) fs).1 = inr (relative_path, duration) ->
  relative_path = "/api/v1/audio/" +:+ (uuid4 w +:+ ".mp3") /\
  exists audio mp3,
    export w audio "mp3" = inr mp3 /\
    duration = duration_of audio /\
    files (run (text_to_speech w text language voice_speed) fs).2 !! audio_path = Some mp3 /\
    files (run (text_to_speech w text language voice_speed) fs).2 !! temp_audio_path = None.
Proof.
  intros temp_audio_path audio_path Hdiff. rewrite text_to_speech_run.
  fold temp_audio_path audio_path.
  destruct (gtts_check w _) as [msg |]; [done |].
  destruct (gtts_save w _) as [msg | data]; [done |].
  cbn [fst snd].
  destruct (adjust_speed w temp_audio_path audio_path voice_speed _).1
    as [e | d] eqn:Hadjusted; [done |].
  intros [= <- <-]. split; [done |].
  destruct (adjust_speed_returns _ _ _ _ _ _ Hadjusted) as (audio & mp3 & Hexport & -> & ->).
  exists audio, mp3. split; [done |]. split; [done |]. split.
  - rewrite lookup_delete_ne by done. apply lookup_insert_eq.
  - apply lookup_delete_eq.
Qed.

(** X12: when [text_to_speech] returns, the MP3 it exported is stored under
    [app/static/audio/<uuid>.mp3], the duration it returns is the length of
    the exported audio, and its temporary file is gone. *)
Theorem text_to_speech_publishes
    (w : world) (text language : string) (voice_speed : Q) (fs : gmap string bytes)
    (relative_path : string) (duration : Q) :
  let temp_audio_path := tmp_stem w +:+ ".mp3" in
  let audio_path := audio_output_dir +:+ "/" +:+ (uuid4 w +:+ ".mp3") in
  audio_path <> temp_audio_path ->
  (run (text_to_speech w text language voice_speed) fs).1 = inr (relative_path, duration) ->
  exists audio mp3,
    export w audio "mp3" = inr mp3 /\
    duration = duration_of audio /\
    files (run (text_to_speech w text language voice_speed) fs).2 !! audio_path = Some mp3 /\
    files (run (text_to_speech w text language voice_speed) fs).2 !! temp_audio_path = None.
Proof.
  intros temp_audio_path audio_path Hdiff Hreturned.
  exact (proj2 (text_to_speech_returns w text language voice_speed fs relative_path duration
                  Hdiff Hreturned)).
Qed.

Lemma text_to_speech_publishes_witness :
  exists audio mp3,
    export Scenario.online audio "mp3" = inr mp3 /\
    (600 # 1000) = duration_of audio /\
    files (run (text_to_speech Scenario.online "Hello" "en" 2) ∅).2
      !! "app/static/audio/0b7e6c1e-5a0f-4a57-9f0e-3c1d2a4b5c6d.mp3" = Some mp3 /\
    files (run (text_to_speech Scenario.online "Hello" "en" 2) ∅).2
      !! "/tmp/tmpk3v9x2.mp3" = None.
Proof.
  apply (text_to_speech_publishes Scenario.online "Hello" "en" 2 ∅
           "/api/v1/audio/0b7e6c1e-5a0f-4a57-9f0e-3c1d2a4b5c6d.mp3" (600 # 1000)).
  - discriminate.
  - reflexivity.
Defined.

Lemma tempo_scaling_applied_witness :
  run (text_to_speech Scenario.online "Hello" "en" 2) ∅
  = (inr ("/api/v1/audio/0b7e6c1e-5a0f-4a57-9f0e-3c1d2a4b5c6d.mp3", 600 # 1000),
     mkState (delete "/tmp/tmpk3v9x2.mp3"
                (<["app/static/audio/0b7e6c1e-5a0f-4a57-9f0e-3c1d2a4b5c6d.mp3"
                   := Scenario.wav_of Scenario.decoded]>
                   (<["/tmp/tmpk3v9x2.mp3" := Scenario.clip]> ∅)))
             [Synth (mkTTS "Hello" "en" false);
              Created "/tmp/tmpk3v9x2.mp3"; Saved "/tmp/tmpk3v9x2.mp3";
              Loaded "mp3" "/tmp/tmpk3v9x2.mp3"; Speedup 2;
              Exported "mp3" "app/static/audio/0b7e6c1e-5a0f-4a57-9f0e-3c1d2a4b5c6d.mp3";
              Unlinked "/tmp/tmpk3v9x2.mp3"]).
Proof.
  apply (tempo_scaling_applied Scenario.online "Hello" "en" 2 ∅ Scenario.clip
           (Scenario.wav_of Scenario.decoded) Scenario.decoded
           (Scenario.faster Scenario.decoded 2)).
  - discriminate.
  - discriminate.
  - reflexivity.
  - reflexivity.
  - reflexivity.
  - reflexivity.
  - reflexivity.
Defined.

(** * Properties of the routes *)

(** ** Validation comes first *)

(** X14: a language that the settings do not list is refused with status
    400 by the three speech routes before anything else happens: the state
    is untouched. *)
Theorem speech_routes_refuse_unsupported_language
    (w : world) (language : string) (s : state) :
  routes.unsupported language = true ->
  let refusal := routes.HTTPException 400 ("Unsupported language: " +:+ language) in
  (forall audio_data,
     routes.voice_to_text w (VoiceToTextRequest.make audio_data language) s
     = (inl refusal, s)) /\
  (forall audio, routes.speech_to_text w audio language s = (inl refusal, s)) /\
  (forall text voice_speed,
     routes.text_to_speech w (TextToSpeechRequest.make text language voice_speed) s
     = (inl refusal, s)).
Proof.
  intros Hbad refusal. repeat split; intros;
    unfold routes.voice_to_text, routes.speech_to_text, routes.text_to_speech,
      routes.handled, routes.bind, routes.reject_if; cbn; by rewrite Hbad.
Qed.

Lemma speech_routes_refuse_unsupported_language_witness :
  routes.speech_to_text Scenario.online
    (UploadFile.make (Some "clip.wav") (Some "audio/wav") Scenario.clip) "sw" (mkState ∅ [])
  = (inl (routes.HTTPException 400 "Unsupported language: sw"), mkState ∅ []).
Proof.
  apply (proj1 (proj2 (speech_routes_refuse_unsupported_language Scenario.online "sw"
                         (mkState ∅ []) eq_refl))).
Defined.

(** X15: an upload without a content type, or with one that does not start
    with [audio/], is refused with status 400 before its bytes are looked
    at: the state is untouched. *)
Theorem speech_to_text_refuses_other_uploads
    (w : world) (audio : UploadFile.t) (language : string) (s : state) :
  routes.unsupported language = false ->
  match UploadFile.content_type audio with
  | None => True
  | Some content_type => Str.startswith "audio/" content_type = false
  end ->
  routes.speech_to_text w audio language s
  = (inl (routes.HTTPException 400 "File must be an audio file"), s).
Proof.
  intros Hok Htype.
  assert (Hnot : routes.not_audio audio = true).
  { unfold routes.not_audio. destruct (UploadFile.content_type audio); [| done].
    rewrite Htype. apply orb_true_r. }
  unfold routes.speech_to_text, routes.handled, routes.bind, routes.reject_if.
  by rewrite Hok, Hnot.
Qed.

Lemma speech_to_text_refuses_other_uploads_witness :
  routes.speech_to_text Scenario.online
    (UploadFile.make (Some "notes.txt") (Some "text/plain") Scenario.clip) "en" (mkState ∅ [])
  = (inl (routes.HTTPException 400 "File must be an audio file"), mkState ∅ []).
Proof.
  apply (speech_to_text_refuses_other_uploads Scenario.online
           (UploadFile.make (Some "notes.txt") (Some "text/plain") Scenario.clip) "en"
           (mkState ∅ [])); reflexivity.
Defined.

(** ** What the voice-to-text route answers *)

Lemma voice_to_text_route_run (w : world) (request : VoiceToTextRequest.t)
    (fs : gmap string bytes) :
  routes.unsupported (VoiceToTextRequest.language request) = false ->
  let call := run (voice_to_text w (VoiceToTextRequest.audio_data request)
                     (VoiceToTextRequest.language request)) fs in
  routes.voice_to_text w request (mkState fs [])
  = (match call.1 with
     | inl e =>
         inl (routes.HTTPException 500 ("Voice to text conversion failed: " +:+ str e))
     | inr (recognized_text, confidence) =>
         inr (VoiceToTextResponse.make recognized_text
                (VoiceToTextRequest.language request) (Some confidence))
     end,
     call.2).
Proof.
  intros Hok call. subst call.
  unfold routes.voice_to_text, routes.handled, routes.bind at 1, routes.reject_if.
  rewrite Hok. cbn [routes.ret]. unfold routes.bind, routes.await,
    speech_service.voice_to_text, run.
  destruct (voice_to_text w _ _ _) as [[e | [recognized_text confidence]] s']; done.
Qed.

(** X16: the voice-to-text route answers with status 400 or 500 when it
    fails, and lets no other exception through.  Every failure of the
    service is a 500 whose detail repeats the prefix of the route in front
    of the message of the service; a response carries the language of the
    request and one of the two confidences of the service. *)
Theorem voice_to_text_route_answers
    (w : world) (request : VoiceToTextRequest.t) (fs : gmap string bytes) :
  match (routes.voice_to_text w request (mkState fs [])).1 with
  | inl (routes.HTTPException status_code detail) =>
      (status_code = 400%nat /\
       routes.unsupported (VoiceToTextRequest.language request) = true) \/
      (status_code = 500%nat /\
       routes.unsupported (VoiceToTextRequest.language request) = false /\
       (detail = "Voice to text conversion failed: Could not understand the audio" \/
        exists cause,
          detail = "Voice to text conversion failed: Voice to text conversion failed: "
                   +:+ cause))
  | inl (routes.Uncaught _) => False
  | inr response =>
      routes.unsupported (VoiceToTextRequest.language request) = false /\
      VoiceToTextResponse.language response = VoiceToTextRequest.language request /\
      (VoiceToTextResponse.confidence_score response = Some (85 # 100) \/
       VoiceToTextResponse.confidence_score response = Some (7 # 10))
  end.
Proof.
  destruct (routes.unsupported (VoiceToTextRequest.language request)) eqn:Hlang.
  { unfold routes.voice_to_text, routes.handled, routes.bind, routes.reject_if.
    rewrite Hlang. cbn. by left. }
  rewrite voice_to_text_route_run by done. cbn [fst].
  destruct (run (voice_to_text w _ _) fs).1 as [e | [recognized_text confidence]] eqn:Hcall.
  - right. split; [done |]. split; [done |].
    destruct (voice_to_text_raises _ _ _ _ _ Hcall) as [-> | [cause ->]].
    + by left.
    + right. by exists cause.
  - split; [done |]. split; [done |]. cbn.
    apply voice_to_text_returns in Hcall as (audio & _ & [[_ ->] | (_ & _ & ->)]); auto.
Qed.

(** X17: audio data that base64 cannot decode is answered with status 500
    (not with a client error), the message of the decoder behind the two
    prefixes, and nothing has been created. *)
Theorem voice_to_text_route_undecodable
    (w : world) (request : VoiceToTextRequest.t) (fs : gmap string bytes) (msg : string) :
  routes.unsupported (VoiceToTextRequest.language request) = false ->
  b64decode w (VoiceToTextRequest.audio_data request) = inl msg ->
  routes.voice_to_text w request (mkState fs [])
  = (inl (routes.HTTPException 500
            ("Voice to text conversion failed: Voice to text conversion failed: " +:+ msg)),
     mkState fs []).
Proof.
  intros Hok Hbad. rewrite voice_to_text_route_run by done.
  by rewrite (voice_to_text_undecoded_run w _ _ fs msg).
Qed.

Lemma voice_to_text_route_undecodable_witness :
  routes.voice_to_text Scenario.online (VoiceToTextRequest.make "not base64" "hi")
    (mkState ∅ [])
  = (inl (routes.HTTPException 500
            "Voice to text conversion failed: Voice to text conversion failed: Incorrect padding"),
     mkState ∅ []).
Proof.
  apply (voice_to_text_route_undecodable Scenario.online
           (VoiceToTextRequest.make "not base64" "hi") ∅ "Incorrect padding");
    reflexivity.
Defined.

(** ** An upload through base64 *)

(** X18: the upload route hands the service the base64 text of the uploaded
    bytes; when base64 gives those bytes back, the audio that is recognized
    is the normalized upload, and what a backend answers for it is returned
    as [text] and as [transcription], with the name of the uploaded file. *)
Theorem speech_to_text_recognizes_upload
    (w : world) (audio : UploadFile.t) (language : string) (fs : gmap string bytes)
    (recorded : AudioData) (text : string) (confidence : Q) :
  let audio_content := UploadFile.content audio in
  routes.unsupported language = false ->
  routes.not_audio audio = false ->
  b64decode w (Base64.b64encode audio_content) = inr audio_content ->
  audio_file w (normalized w audio_content (first_success w audio_content formats).2)
  = inr recorded ->
  recognized w recorded (_get_recognition_language_code language) = inr (text, confidence) ->
  (routes.speech_to_text w audio language (mkState fs [])).1
  = inr (SpeechToTextResult.make text text language confidence (UploadFile.filename audio)).
Proof.
  intros audio_content Hok Haudio Hround Hopened Hanswer.
  unfold routes.speech_to_text, routes.handled, routes.bind at 1, routes.reject_if.
  rewrite Hok. cbn [routes.ret]. unfold routes.bind at 1. rewrite Haudio.
  cbn [routes.ret]. unfold routes.bind, routes.await, speech_service.voice_to_text.
  fold audio_content.
  pose proof (voice_to_text_run w (Base64.b64encode audio_content) language fs
                audio_content Hround) as Hrun.
  cbn zeta in Hrun. unfold run in Hrun. rewrite Hrun, Hopened, Hanswer. reflexivity.
Qed.

Lemma speech_to_text_recognizes_upload_witness :
  (routes.speech_to_text Scenario.online
     (UploadFile.make (Some "clip.wav") (Some "audio/wav") Scenario.clip) "en"
     (mkState ∅ [])).1
  = inr (SpeechToTextResult.make "hello" "hello" "en" (85 # 100) (Some "clip.wav")).
Proof.
  apply (speech_to_text_recognizes_upload Scenario.online
           (UploadFile.make (Some "clip.wav") (Some "audio/wav") Scenario.clip) "en" ∅
           (mkAudio (Scenario.wav_of Scenario.decoded)) "hello" (85 # 100));
    reflexivity.
Defined.

(** ** From synthesis to the served file *)

Lemma get_audio_file_run (is_dir : path -> bool) (filename : string) (s : state) :
  routes.get_audio_file is_dir filename s
  = (if bool_decide (is_Some (files s !! os_path_join "app/static/audio" filename))
        || is_dir (os_path_join "app/static/audio" filename)
     then inr (FileResponse.make (os_path_join "app/static/audio" filename)
                 "audio/mpeg" filename)
     else inl (routes.HTTPException 404 "Audio file not found"),
     s).
Proof.
  unfold routes.get_audio_file, routes.handled, routes.bind, routes.await,
    routes.reject_if, routes.os_path_exists.
  by destruct (bool_decide _ || is_dir _).
Qed.

(** X19: the route that serves audio never changes the state and never
    answers 500: it answers 404 exactly when the name joined to
    [app/static/audio] leads neither to a stored file nor to a directory,
    and otherwise returns a response for that path as [audio/mpeg], for a
    directory as for a file. *)
Theorem get_audio_file_answers (is_dir : path -> bool) (filename : string) (s : state) :
  let audio_path := os_path_join "app/static/audio" filename in
  let answer := routes.get_audio_file is_dir filename s in
  answer.2 = s /\
  (answer.1 = inl (routes.HTTPException 404 "Audio file not found")
   <-> files s !! audio_path = None /\ is_dir audio_path = false) /\
  (is_Some (files s !! audio_path) \/ is_dir audio_path = true ->
   answer.1 = inr (FileResponse.make audio_path "audio/mpeg" filename)).
Proof.
  intros audio_path answer. subst answer. rewrite get_audio_file_run. fold audio_path.
  split; [done |]. cbn [fst].
  case_bool_decide as Hpresent.
  - cbn [orb]. split; [| done].
    split; [done |]. intros [Hmissing _]. rewrite Hmissing in Hpresent.
    by destruct Hpresent.
  - apply eq_None_not_Some in Hpresent. rewrite Hpresent. cbn [orb].
    destruct (is_dir audio_path).
    + split; [| done]. split; [done |]. by intros [_ ?].
    + split; [done |]. intros [[data Hdata] | Hdir]; done.
Qed.

Lemma get_audio_file_answers_witness :
  (routes.get_audio_file (String.eqb "app/static/audio/..") ".." (mkState ∅ [])).1
  = inr (FileResponse.make "app/static/audio/.." "audio/mpeg" "..").
Proof.
  apply (proj2 (proj2 (get_audio_file_answers (String.eqb "app/static/audio/..") ".."
                         (mkState ∅ [])))).
  right. reflexivity.
Defined.

Lemma join_audio_dir (name : string) :
  Str.startswith "/" name = false ->
  os_path_join "app/static/audio" name = audio_output_dir +:+ "/" +:+ name.
Proof. intros Hrel. unfold os_path_join. by rewrite Hrel. Qed.

Lemma startswith_slash_app (name suffix : string) :
  Str.startswith "/" name = false ->
  Str.startswith "/" suffix = false ->
  Str.startswith "/" (name +:+ suffix) = false.
Proof. intros Hname Hsuffix. by destruct name. Qed.

(** X20: a text-to-speech request that the route answers can be fetched:
    the file name at the end of the returned URL, given to the route that
    serves audio in the state the synthesis left, is served from
    [app/static/audio] and not answered with 404. *)
Theorem synthesized_audio_is_served
    (w : world) (is_dir : path -> bool) (request : TextToSpeechRequest.t)
    (fs : gmap string bytes) (response : TextToSpeechResponse.t) (s' : state) :
  let filename := uuid4 w +:+ ".mp3" in
  Str.startswith "/" (uuid4 w) = false ->
  audio_output_dir +:+ "/" +:+ filename <> tmp_stem w +:+ ".mp3" ->
  routes.text_to_speech w request (mkState fs []) = (inr response, s') ->
  TextToSpeechResponse.audio_url response = "/api/v1/audio/" +:+ filename /\
  routes.get_audio_file is_dir filename s'
  = (inr (FileResponse.make ("app/static/audio/" +:+ filename) "audio/mpeg" filename), s').
Proof.
  intros filename Hrel Hdiff.
  destruct request as [text language [voice_speed |]];
    unfold routes.text_to_speech, routes.handled, routes.bind at 1, routes.reject_if;
    cbn [TextToSpeechRequest.language TextToSpeechRequest.text
           TextToSpeechRequest.voice_speed];
    (destruct (routes.unsupported language); [done |]);
    cbn [routes.ret]; unfold routes.bind, routes.await, speech_service.text_to_speech;
    [| by cbn].
  pose proof (text_to_speech_returns w text language voice_speed fs) as Hreturned.
  unfold run in Hreturned.
  destruct (text_to_speech w text language voice_speed (mkState fs []))
    as [[e | [relative_path duration]] s1]; [done |].
  cbn [fst snd] in Hreturned. intros [= <- <-].
  destruct (Hreturned relative_path duration Hdiff eq_refl)
    as (Hurl & audio & mp3 & _ & _ & Hstored & _).
  split; [done |].
  rewrite get_audio_file_run, join_audio_dir
    by (by apply startswith_slash_app).
  subst filename. rewrite Hstored.
  by rewrite bool_decide_eq_true_2 by by eexists.
Qed.

Lemma synthesized_audio_is_served_witness :
  routes.get_audio_file (fun _ => false) "0b7e6c1e-5a0f-4a57-9f0e-3c1d2a4b5c6d.mp3"
    (routes.text_to_speech Scenario.online
       (TextToSpeechRequest.make "Hello" "en" (Some 2%Q)) (mkState ∅ [])).2
  = (inr (FileResponse.make "app/static/audio/0b7e6c1e-5a0f-4a57-9f0e-3c1d2a4b5c6d.mp3"
            "audio/mpeg" "0b7e6c1e-5a0f-4a57-9f0e-3c1d2a4b5c6d.mp3"),
     (routes.text_to_speech Scenario.online
        (TextToSpeechRequest.make "Hello" "en" (Some 2%Q)) (mkState ∅ [])).2).
Proof.
  refine (proj2 (synthesized_audio_is_served Scenario.online (fun _ => false)
                   (TextToSpeechRequest.make "Hello" "en" (Some 2%Q)) ∅
                   (TextToSpeechResponse.make
                      "/api/v1/audio/0b7e6c1e-5a0f-4a57-9f0e-3c1d2a4b5c6d.mp3"
                      "Hello" "en" (Some (600 # 1000)))
                   _ _ _ _)).
  - reflexivity.
  - discriminate.
  - vm_compute. reflexivity.
Defined.

(** * Properties of the translation service *)

(** ** The confidence estimate *)

Lemma estimate_confidence_unit (py : pystr) (original_text translated_text : string) :
  (0 <= gemini_service._estimate_confidence py original_text translated_text)%Q /\
  (gemini_service._estimate_confidence py original_text translated_text <= 1)%Q.
Proof.
  unfold gemini_service._estimate_confidence.
  destruct (Nat.max _ _ =? 0)%nat;
    [| destruct (Qlt_bool (7 # 10) _);
       [| destruct (Qlt_bool _ (3 # 10))];
       destruct (length (split py translated_text) <? 2)%nat ];
    vm_compute; split; discriminate.
Qed.

(** X21: whatever the two texts, the estimated confidence is one of 0.3,
    0.5, 0.6, 0.7, 0.8 and 0.9, hence between 0 and 1 as the docstring
    says. *)
Theorem estimate_confidence_values (py : pystr) (original_text translated_text : string) :
  let confidence := gemini_service._estimate_confidence py original_text translated_text in
  (confidence == 3 # 10 \/ confidence == 5 # 10 \/ confidence == 6 # 10 \/
   confidence == 7 # 10 \/ confidence == 8 # 10 \/ confidence == 9 # 10)%Q /\
  (0 <= confidence)%Q /\ (confidence <= 1)%Q.
Proof.
  unfold gemini_service._estimate_confidence.
  destruct (Nat.max _ _ =? 0)%nat;
    [| destruct (Qlt_bool (7 # 10) _);
       [| destruct (Qlt_bool _ (3 # 10))];
       destruct (length (split py translated_text) <? 2)%nat ];
    vm_compute; repeat split; try discriminate;
    first [ left; reflexivity
          | right; left; reflexivity
          | right; right; left; reflexivity
          | right; right; right; left; reflexivity
          | right; right; right; right; left; reflexivity
          | right; right; right; right; right; reflexivity ].
Qed.

Lemma ratio_of_equal_counts (n : nat) :
  (1 <= n)%nat -> Qlt_bool (7 # 10) (Z.of_nat (Nat.min n n) # Pos.of_nat (Nat.max n n)) = true.
Proof.
  intros Hn. apply Qlt_bool_true. rewrite Nat.min_id, Nat.max_id.
  unfold Qlt. cbn [Qnum Qden]. lia.
Qed.

(** X22: the three regimes of the estimate.  Two texts without a word get
    0.7 (the division by zero is caught); a translation with as many words
    as the original, and at least two, gets 0.9; a translation of fewer than
    two words for an original that has words never gets more than 0.6. *)
Theorem estimate_confidence_regimes (py : pystr) (original_text translated_text : string) :
  let original_length := length (split py original_text) in
  let translated_length := length (split py translated_text) in
  let confidence := gemini_service._estimate_confidence py original_text translated_text in
  (original_length = 0%nat -> translated_length = 0%nat -> confidence = 7 # 10) /\
  (original_length = translated_length -> (2 <= translated_length)%nat ->
   (confidence == 9 # 10)%Q) /\
  ((1 <= original_length)%nat -> (translated_length < 2)%nat ->
   (confidence <= 6 # 10)%Q).
Proof.
  intros original_length translated_length confidence.
  subst confidence. unfold gemini_service._estimate_confidence.
  fold original_length translated_length. split; [| split].
  - by intros -> ->.
  - intros Hsame Hwords. rewrite Hsame.
    destruct (Nat.eqb_spec (Nat.max translated_length translated_length) 0) as [Hzero |];
      [lia |].
    rewrite ratio_of_equal_counts by lia.
    destruct (Nat.ltb_spec translated_length 2); [lia |].
    by vm_compute.
  - intros Horiginal Hshort.
    destruct (Nat.eqb_spec (Nat.max original_length translated_length) 0); [lia |].
    destruct (Nat.ltb_spec translated_length 2); [| lia].
    destruct (Qlt_bool (7 # 10) _); [| destruct (Qlt_bool _ (3 # 10))];
      vm_compute; discriminate.
Qed.

Lemma estimate_confidence_regimes_witness :
  gemini_service._estimate_confidence Newsroom.ascii_py "" "" = 7 # 10 /\
  (gemini_service._estimate_confidence Newsroom.ascii_py "good morning" "shubh prabhat"
   == 9 # 10)%Q /\
  (gemini_service._estimate_confidence Newsroom.ascii_py "good morning to all" "namaste"
   <= 6 # 10)%Q.
Proof.
  split; [| split].
  - apply (proj1 (estimate_confidence_regimes Newsroom.ascii_py "" "")); reflexivity.
  - apply (proj1 (proj2 (estimate_confidence_regimes Newsroom.ascii_py
                           "good morning" "shubh prabhat"))).
    + reflexivity.
    + vm_compute. lia.
  - apply (proj2 (proj2 (estimate_confidence_regimes Newsroom.ascii_py
                           "good morning to all" "namaste"))); vm_compute; lia.
Defined.

(** ** Translation and detection *)

(** A call of [translate_text], from what the model answers. *)
Lemma translate_text_run
    (g : gemini_service.model) (py : pystr) (text source_language target_language : string)
    (s : state) :
  let prompt :=
    gemini_service.translation_prompt
      (Dict.get settings.supported_languages source_language source_language)
      (Dict.get settings.supported_languages target_language target_language) text in
  gemini_service.translate_text g py text source_language target_language s
  = (match gemini_service.generate_text g prompt with
     | inl msg => inl (Exception ("Translation failed: " +:+ msg))
     | inr response =>
         if String.eqb response ""
         then inl (Exception "Translation failed: Empty response from Gemini API")
         else inr (strip py response,
                   gemini_service._estimate_confidence py text (strip py response))
     end,
     s).
Proof.
  unfold gemini_service.translate_text, try_except, bind, lift, ret, raise.
  destruct (gemini_service.generate_text g _) as [msg | response]; [done |].
  by destruct (String.eqb response "").
Qed.

(** X23: [translate_text] never touches the state.  What it raises is
    "Translation failed: " followed by the cause; what it returns is the
    stripped text of a response that was not empty, with a confidence
    between 0 and 1. *)
Theorem translate_text_outcomes
    (g : gemini_service.model) (py : pystr) (text source_language target_language : string)
    (s : state) :
  let call := gemini_service.translate_text g py text source_language target_language s in
  call.2 = s /\
  match call.1 with
  | inl e => exists cause, e = Exception ("Translation failed: " +:+ cause)
  | inr (translated_text, confidence) =>
      (exists prompt response,
         gemini_service.generate_text g prompt = inr response /\
         response <> "" /\ translated_text = strip py response) /\
      (0 <= confidence)%Q /\ (confidence <= 1)%Q
  end.
Proof.
  cbn zeta. rewrite translate_text_run. split; [done |]. cbn [fst].
  destruct (gemini_service.generate_text g _) as [msg | response] eqn:Hanswer.
  - by eexists.
  - destruct (String.eqb_spec response "") as [-> | Hfull].
    + by exists "Empty response from Gemini API".
    + split; [eauto |]. apply estimate_confidence_unit.
Qed.

(** X24: a response made of whitespace only is not taken for an empty
    response: the emptiness test comes before the stripping, so the call
    returns the empty string as the translation, with a confidence of 0.7
    at most. *)
Theorem blank_response_is_returned
    (g : gemini_service.model) (py : pystr) (text source_language target_language : string)
    (s : state) (response : string) :
  (forall prompt, gemini_service.generate_text g prompt = inr response) ->
  response <> "" ->
  strip py response = "" ->
  split py "" = [] ->
  exists confidence,
    gemini_service.translate_text g py text source_language target_language s
    = (inr ("", confidence), s) /\
    (confidence <= 7 # 10)%Q.
Proof.
  intros Hanswer Hfull Hblank Hwords.
  unfold gemini_service.translate_text, try_except, bind, lift, ret, raise.
  rewrite Hanswer. cbn.
  destruct (String.eqb_spec response "") as [| _]; [done |]. cbn.
  rewrite Hblank. eexists. split; [reflexivity |].
  unfold gemini_service._estimate_confidence. rewrite Hwords. cbn [length].
  rewrite Nat.max_0_r, Nat.min_0_r.
  destruct (length (split py text) =? 0)%nat; [by vm_compute |].
  destruct (Qlt_bool (7 # 10) _); [| destruct (Qlt_bool _ (3 # 10))];
    vm_compute; discriminate.
Qed.

Lemma blank_response_is_returned_witness :
  exists confidence,
    gemini_service.translate_text (Newsroom.answering (inr "   ")) Newsroom.ascii_py
      "good morning" "en" "hi" (mkState ∅ [])
    = (inr ("", confidence), mkState ∅ []) /\
    (confidence <= 7 # 10)%Q.
Proof.
  apply (blank_response_is_returned (Newsroom.answering (inr "   ")) Newsroom.ascii_py
           "good morning" "en" "hi" (mkState ∅ []) "   ").
  - reflexivity.
  - discriminate.
  - reflexivity.
  - reflexivity.
Defined.

(** A call of [detect_language], from what the model answers. *)
Lemma detect_language_run
    (g : gemini_service.model) (py : pystr) (text : string) (s : state) :
  gemini_service.detect_language g py text s
  = (inr match gemini_service.generate_text g (gemini_service.detection_prompt text) with
         | inl _ => "en"
         | inr response =>
             if Dict.contains settings.supported_languages (lower py (strip py response))
             then lower py (strip py response)
             else "en"
         end,
     s).
Proof.
  unfold gemini_service.detect_language, try_except, bind, lift, ret, raise.
  destruct (gemini_service.generate_text g _) as [msg | response]; [done |].
  by destruct (Dict.contains settings.supported_languages (lower py (strip py response))).
Qed.

Lemma detect_language_run_supported
    (g : gemini_service.model) (py : pystr) (text : string) :
  Dict.contains settings.supported_languages
    match gemini_service.generate_text g (gemini_service.detection_prompt text) with
    | inl _ => "en"
    | inr response =>
        if Dict.contains settings.supported_languages (lower py (strip py response))
        then lower py (strip py response)
        else "en"
    end
  = true.
Proof.
  destruct (gemini_service.generate_text g _) as [msg | response]; [done |].
  by destruct (Dict.contains settings.supported_languages (lower py (strip py response)))
    eqn:Hknown.
Qed.

(** X25: [detect_language] never raises and never touches the state, and
    the code it returns is always one of the settings: an answer of the
    model that is not among them, or no answer at all, becomes "en". *)
Theorem detect_language_is_supported
    (g : gemini_service.model) (py : pystr) (text : string) (s : state) :
  exists code,
    gemini_service.detect_language g py text s = (inr code, s) /\
    Dict.contains settings.supported_languages code = true.
Proof.
  eexists. split; [apply detect_language_run | apply detect_language_run_supported].
Qed.

Lemma supported_language_has_name (code : string) :
  Dict.contains settings.supported_languages code = true ->
  Dict.get settings.supported_languages code "Unknown" <> "Unknown".
Proof.
  intros Hin. apply supported_cases in Hin.
  cbn [Dict.keys settings.supported_languages map fst] in Hin.
  repeat (apply elem_of_cons in Hin as [-> | Hin]; [by vm_compute |]).
  by apply elem_of_nil in Hin.
Qed.

Lemma detect_language_route_run
    (g : gemini_service.model) (py : pystr) (text : string) (s : state) :
  exists code,
    Dict.contains settings.supported_languages code = true /\
    routes.detect_language g py text s
    = (if String.eqb (strip py text) ""
       then inl (routes.HTTPException 400 "Text cannot be empty")
       else inr (DetectionResult.make text code
                   (Dict.get settings.supported_languages code "Unknown")),
       s).
Proof.
  eexists. split; [apply (detect_language_run_supported g py text) |].
  pose proof (detect_language_run g py text s) as Hrun.
  unfold routes.detect_language, routes.handled, routes.bind at 1, routes.reject_if.
  destruct (String.eqb (strip py text) ""); [done |].
  cbn [routes.ret]. unfold routes.bind, routes.await. by rewrite Hrun.
Qed.

(** X26: the detection route answers a text that strips to nothing with
    status 400, and every other text with a response: it never answers
    500.  The response names a language of the settings, so that its
    [language_name] is never the placeholder "Unknown". *)
Theorem detect_language_route_answers
    (g : gemini_service.model) (py : pystr) (text : string) (s : state) :
  (routes.detect_language g py text s).2 = s /\
  match (routes.detect_language g py text s).1 with
  | inl (routes.HTTPException status_code detail) =>
      status_code = 400%nat /\ detail = "Text cannot be empty" /\ strip py text = ""
  | inl (routes.Uncaught _) => False
  | inr result =>
      strip py text <> "" /\
      DetectionResult.text result = text /\
      Dict.contains settings.supported_languages (DetectionResult.detected_language result)
      = true /\
      DetectionResult.language_name result <> "Unknown"
  end.
Proof.
  destruct (detect_language_route_run g py text s) as (code & Hcode & ->).
  split; [done |]. cbn [fst].
  destruct (String.eqb_spec (strip py text) "") as [Hblank | Hfull]; [done |].
  exact (conj Hfull (conj eq_refl (conj Hcode (supported_language_has_name _ Hcode)))).
Qed.

Lemma translate_route_run
    (g : gemini_service.model) (py : pystr) (request : TranslationRequest.t) (s : state) :
  let source_language := TranslationRequest.source_language request in
  let target_language := TranslationRequest.target_language request in
  let call :=
    gemini_service.translate_text g py (TranslationRequest.text request)
      source_language target_language s in
  routes.translate_text g py request s
  = if routes.unsupported source_language then
      (inl (routes.HTTPException 400 ("Unsupported source language: " +:+ source_language)),
       s)
    else if routes.unsupported target_language then
      (inl (routes.HTTPException 400 ("Unsupported target language: " +:+ target_language)),
       s)
    else
      (match call.1 with
       | inl e => inl (routes.HTTPException 500 ("Translation failed: " +:+ str e))
       | inr (translated_text, confidence) =>
           inr (TranslationResponse.make (TranslationRequest.text request) translated_text
                  source_language target_language (Some confidence))
       end,
       call.2).
Proof.
  intros source_language target_language call. subst call.
  unfold routes.translate_text, routes.handled, routes.bind at 1, routes.reject_if.
  fold source_language target_language.
  destruct (routes.unsupported source_language); [done |].
  cbn [routes.ret]. unfold routes.bind at 1.
  destruct (routes.unsupported target_language); [done |].
  cbn [routes.ret]. unfold routes.bind, routes.await.
  by destruct (gemini_service.translate_text g py _ source_language target_language s)
    as [[e | [translated_text confidence]] s1].
Qed.

(** X27: the translation route never touches the state.  It refuses an
    unsupported source language with status 400 whatever the target is, an
    unsupported target language with status 400 when the source is
    supported, and answers every failure of the service with status 500 and
    the prefix "Translation failed: " twice. *)
Theorem translate_route_answers
    (g : gemini_service.model) (py : pystr) (request : TranslationRequest.t) (s : state) :
  let source_language := TranslationRequest.source_language request in
  let target_language := TranslationRequest.target_language request in
  (routes.translate_text g py request s).2 = s /\
  match (routes.translate_text g py request s).1 with
  | inl (routes.HTTPException status_code detail) =>
      (status_code = 400%nat /\ routes.unsupported source_language = true /\
       detail = "Unsupported source language: " +:+ source_language) \/
      (status_code = 400%nat /\ routes.unsupported source_language = false /\
       routes.unsupported target_language = true /\
       detail = "Unsupported target language: " +:+ target_language) \/
      (status_code = 500%nat /\ routes.unsupported source_language = false /\
       routes.unsupported target_language = false /\
       exists cause, detail = "Translation failed: Translation failed: " +:+ cause)
  | inl (routes.Uncaught _) => False
  | inr response =>
      routes.unsupported source_language = false /\
      routes.unsupported target_language = false /\
      TranslationResponse.original_text response = TranslationRequest.text request /\
      exists confidence,
        TranslationResponse.confidence_score response = Some confidence /\
        (0 <= confidence)%Q /\ (confidence <= 1)%Q
  end.
Proof.
  intros source_language target_language. rewrite translate_route_run.
  fold source_language target_language.
  destruct (routes.unsupported source_language) eqn:Hsource.
  { split; [done |]. by left. }
  destruct (routes.unsupported target_language) eqn:Htarget.
  { split; [done |]. right. by left. }
  rewrite translate_text_run. cbn [fst snd]. split; [done |].
  destruct (gemini_service.generate_text g _) as [msg | response].
  - right. right. split; [done |]. split; [done |]. split; [done |]. by exists msg.
  - destruct (String.eqb response "").
    + right. right. split; [done |]. split; [done |]. split; [done |].
      by exists "Empty response from Gemini API".
    + split; [done |]. split; [done |]. split; [done |].
      eexists. split; [done |]. apply estimate_confidence_unit.
Qed.
